(** * acplotoo.geoplot: the [Geoplot] scheduling facade

    A shallow embedding of [src/acplotoo/geoplot.py].  The methods of the
    class are functions in a state-and-exception monad over a [World]: the
    Python heap of mutable limit lists, the attributes of the plot object,
    and a trace of the warnings and hook invocations the methods issue.

    NumPy arrays are one-dimensional [float64] arrays with IEEE 754
    binary64 arithmetic ([SpecFloat]); the two libm functions the module
    calls, [sin] and [cos], are an interface ([Libm]). *)

From Stdlib Require Import ZArith Bool Floats.SpecFloat.
From stdpp Require Import gmap strings list fin_maps.

Open Scope Z_scope.

(** ** IEEE 754 binary64 *)

Module F64.

Definition prec : Z := 53.
Definition emax : Z := 1024.

Definition of_Z (z : Z) : spec_float := binary_normalize prec emax z 0 false.

Definition sub : spec_float -> spec_float -> spec_float := SFsub prec emax.
Definition mul : spec_float -> spec_float -> spec_float := SFmul prec emax.
Definition div : spec_float -> spec_float -> spec_float := SFdiv prec emax.
Definition ltb : spec_float -> spec_float -> bool := SFltb.

Definition is_nan (f : spec_float) : bool :=
  match f with S754_nan => true | _ => false end.

Definition zero : spec_float := of_Z 0.
Definition one : spec_float := of_Z 1.
Definition half : spec_float := binary_normalize prec emax 1 (-1) false.

(** [NPY_PI], the double nearest to pi: 0x1.921fb54442d18p+1. *)
Definition NPY_PI : spec_float := S754_finite false 7074237752028440 (-51).

(** [np.deg2rad(x)] is [x * (NPY_PI / 180.0)]. *)
Definition deg2rad (x : spec_float) : spec_float :=
  mul x (div NPY_PI (of_Z 180)).

(** [np.minimum] and [np.maximum] on two doubles; a NaN on either side
    comes out. *)
Definition minimum (a b : spec_float) : spec_float :=
  if is_nan a || ltb a b then a else b.
Definition maximum (a b : spec_float) : spec_float :=
  if is_nan a || ltb b a then a else b.

End F64.

Abbreviation float64 := spec_float.

(** The two libm functions reached through [np.sin] and [np.cos]. *)
Class Libm := {
  libm_sin : float64 -> float64;
  libm_cos : float64 -> float64
}.

(** A libm for closed examples: the first-order expansions at zero,
    [sin x ~ x] and [cos x ~ 1]. *)
Definition libm_first_order : Libm :=
  {| libm_sin := fun x => x; libm_cos := fun _ => F64.one |}.

(** ** Python values *)

(** Exceptions, with their messages. *)
Inductive Exn :=
| RuntimeError (msg : string)
| ValueError (msg : string)
| NotImplementedError (msg : string)
| TypeError (msg : string)
| IndexError (msg : string).

(** A one-dimensional [numpy.ndarray] of dtype float64. *)
Abbreviation Arr := (list float64).

(** The values the methods pass through without inspecting them. *)
Inductive PyVal :=
| VNone
| VBool (b : bool)
| VInt (z : Z)
| VFloat (f : float64)
| VStr (s : string)
| VArr (a : Arr).

Definition is_None (v : PyVal) : bool :=
  match v with VNone => true | _ => false end.

(** [**kwargs]: a dict with string keys. *)
Abbreviation Kwargs := (gmap string PyVal).

(** A Python number, as held in a limit list such as [[0, 10]]. *)
Inductive PyNum :=
| PInt (z : Z)
| PFloat (f : float64).

(** Python compares an int with a float by their exact values. *)
Definition cmp_int_float (z : Z) (f : float64) : option comparison :=
  match f with
  | S754_nan => None
  | S754_infinity false => Some Lt
  | S754_infinity true => Some Gt
  | S754_zero _ => Some (z ?= 0)
  | S754_finite s m e =>
      let v := if s then Z.neg m else Z.pos m in
      if 0 <=? e then Some (z ?= v * 2 ^ e) else Some (z * 2 ^ (- e) ?= v)
  end.

(** [a < b] *)
Definition py_lt (a b : PyNum) : bool :=
  match a, b with
  | PInt x, PInt y => x <? y
  | PFloat x, PFloat y => F64.ltb x y
  | PInt x, PFloat y =>
      match cmp_int_float x y with Some Lt => true | _ => false end
  | PFloat x, PInt y =>
      match cmp_int_float y x with Some Gt => true | _ => false end
  end.

(** [a > b] *)
Definition py_gt (a b : PyNum) : bool := py_lt b a.

(** ** NumPy array operations *)

Definition broadcast_error : Exn :=
  ValueError "operands could not be broadcast together".
Definition empty_reduction_error : Exn :=
  ValueError "zero-size array to reduction operation which has no identity".

(** [a - b] with the broadcasting rule of one-dimensional arrays: equal
    lengths, or one operand of length one. *)
Definition np_sub (a b : Arr) : Exn + Arr :=
  if decide (length a = length b) then inr (zip_with F64.sub a b)
  else match a, b with
       | [x], _ => inr (map (fun y => F64.sub x y) b)
       | _, [y] => inr (map (fun x => F64.sub x y) a)
       | _, _ => inl broadcast_error
       end.

(** [a.min()] and [a.max()]: a reduction from the first element. *)
Definition np_min (a : Arr) : Exn + float64 :=
  match a with
  | [] => inl empty_reduction_error
  | x :: r => inr (fold_left F64.minimum r x)
  end.

Definition np_max (a : Arr) : Exn + float64 :=
  match a with
  | [] => inl empty_reduction_error
  | x :: r => inr (fold_left F64.maximum r x)
  end.

Definition np_deg2rad (a : Arr) : Arr := map F64.deg2rad a.
Definition np_sin {L : Libm} (a : Arr) : Arr := map libm_sin a.
Definition np_cos {L : Libm} (a : Arr) : Arr := map libm_cos a.

(** ** The plot object and its world *)

(** The identity of a Python object passed as a limit.  The heap holds
    the objects that are lists; an identity it holds no list for stands
    for an object that is neither None nor subscriptable (a number,
    say). *)
Abbreviation loc := positive.

(** The payload tuple of a scheduled action, by kind. *)
Inductive Payload :=
| PCoastline (level zorder : PyVal) (kwargs : Kwargs)
| PScatter (lon lat : PyVal) (kwargs : Kwargs)
| PQuiver (lon lat u v c : PyVal) (kwargs : Kwargs)
| PStreamplot (x y u v : PyVal) (kwargs : Kwargs)
| PImshow (z : PyVal) (xlim ylim : loc) (kwargs : Kwargs).

(** An entry [[kind, executed, payload]] of [self._scheduled]. *)
Record Action := mkAction {
  kind : string;
  executed : bool;
  payload : Payload
}.

(** The attributes of [self] the methods read or write. *)
Record Geoplot := mkGeoplot {
  _gshhg_path : PyVal;
  _water_color : PyVal;
  _land_color : PyVal;
  _scheduled : list Action;
  _grid_on : PyVal;
  _grid_constant : PyVal;
  _grid_kwargs_base : Kwargs;
  _grid_kwargs : Kwargs;
  _grid_anchor : PyVal * PyVal;
  _update_grid : bool;
  _data_xlim : option loc;
  _data_ylim : option loc
}.

(** What a method leaves behind besides the state: the warnings it
    issued through its own [warn(...)] statements and the invocations of
    the schedule hook, each with the pending list the hook found.
    Warnings that NumPy raises while it computes (a RuntimeWarning for a
    division of zero by zero, say) are no statements of this module and
    are not recorded. *)
Inductive Event :=
| Warned (msg : string)
| Callback (pending : list Action).

Record World := mkWorld {
  heap : gmap loc (list PyNum);
  self : Geoplot;
  dirty : bool;
  trace : list Event
}.

(** ** The monad of a method body *)

(** A method either returns or raises; either way it leaves a world. *)
Inductive Outcome (A : Type) :=
| Return (a : A) (w : World)
| Raise (e : Exn) (w : World).
Arguments Return {A} a w.
Arguments Raise {A} e w.

Definition M (A : Type) : Type := World -> Outcome A.

Definition ret {A} (a : A) : M A := fun w => Return a w.
Definition raise {A} (e : Exn) : M A := fun w => Raise e w.
Definition bind {A B} (m : M A) (k : A -> M B) : M B :=
  fun w => match m w with
           | Return a w' => k a w'
           | Raise e w' => Raise e w'
           end.

Declare Scope py_scope.
Delimit Scope py_scope with py.
Notation "x <- m ;; k" := (bind m (fun x => k))
  (at level 100, m at next level, right associativity) : py_scope.
Notation "m ;; k" := (bind m (fun _ => k))
  (at level 100, right associativity) : py_scope.
Open Scope py_scope.

(** A library call that may raise. *)
Definition lift {A} (r : Exn + A) : M A :=
  match r with inl e => raise e | inr a => ret a end.

Definition when (b : bool) (m : M unit) : M unit := if b then m else ret tt.

Definition world_of {A} (o : Outcome A) : World :=
  match o with Return _ w => w | Raise _ w => w end.

Definition get_self : M Geoplot := fun w => Return (self w) w.
Definition modify_self (f : Geoplot -> Geoplot) : M unit :=
  fun w => Return tt (mkWorld (heap w) (f (self w)) (dirty w) (trace w)).

(** [warnings.warn(msg)] *)
Definition warn (msg : string) : M unit :=
  fun w => Return tt (mkWorld (heap w) (self w) (dirty w) (trace w ++ [Warned msg])).

(** *** Attribute assignment *)

Definition set_water_color (v : PyVal) (g : Geoplot) : Geoplot :=
  mkGeoplot (_gshhg_path g) v (_land_color g) (_scheduled g) (_grid_on g)
    (_grid_constant g) (_grid_kwargs_base g) (_grid_kwargs g) (_grid_anchor g)
    (_update_grid g) (_data_xlim g) (_data_ylim g).

Definition set_land_color (v : PyVal) (g : Geoplot) : Geoplot :=
  mkGeoplot (_gshhg_path g) (_water_color g) v (_scheduled g) (_grid_on g)
    (_grid_constant g) (_grid_kwargs_base g) (_grid_kwargs g) (_grid_anchor g)
    (_update_grid g) (_data_xlim g) (_data_ylim g).

Definition set_scheduled (v : list Action) (g : Geoplot) : Geoplot :=
  mkGeoplot (_gshhg_path g) (_water_color g) (_land_color g) v (_grid_on g)
    (_grid_constant g) (_grid_kwargs_base g) (_grid_kwargs g) (_grid_anchor g)
    (_update_grid g) (_data_xlim g) (_data_ylim g).

Definition set_grid_on (v : PyVal) (g : Geoplot) : Geoplot :=
  mkGeoplot (_gshhg_path g) (_water_color g) (_land_color g) (_scheduled g) v
    (_grid_constant g) (_grid_kwargs_base g) (_grid_kwargs g) (_grid_anchor g)
    (_update_grid g) (_data_xlim g) (_data_ylim g).

Definition set_grid_constant (v : PyVal) (g : Geoplot) : Geoplot :=
  mkGeoplot (_gshhg_path g) (_water_color g) (_land_color g) (_scheduled g)
    (_grid_on g) v (_grid_kwargs_base g) (_grid_kwargs g) (_grid_anchor g)
    (_update_grid g) (_data_xlim g) (_data_ylim g).

Definition set_grid_kwargs (v : Kwargs) (g : Geoplot) : Geoplot :=
  mkGeoplot (_gshhg_path g) (_water_color g) (_land_color g) (_scheduled g)
    (_grid_on g) (_grid_constant g) (_grid_kwargs_base g) v (_grid_anchor g)
    (_update_grid g) (_data_xlim g) (_data_ylim g).

Definition set_grid_anchor (v : PyVal * PyVal) (g : Geoplot) : Geoplot :=
  mkGeoplot (_gshhg_path g) (_water_color g) (_land_color g) (_scheduled g)
    (_grid_on g) (_grid_constant g) (_grid_kwargs_base g) (_grid_kwargs g) v
    (_update_grid g) (_data_xlim g) (_data_ylim g).

Definition set_update_grid (v : bool) (g : Geoplot) : Geoplot :=
  mkGeoplot (_gshhg_path g) (_water_color g) (_land_color g) (_scheduled g)
    (_grid_on g) (_grid_constant g) (_grid_kwargs_base g) (_grid_kwargs g)
    (_grid_anchor g) v (_data_xlim g) (_data_ylim g).

Definition set_data_xlim (v : option loc) (g : Geoplot) : Geoplot :=
  mkGeoplot (_gshhg_path g) (_water_color g) (_land_color g) (_scheduled g)
    (_grid_on g) (_grid_constant g) (_grid_kwargs_base g) (_grid_kwargs g)
    (_grid_anchor g) (_update_grid g) v (_data_ylim g).

Definition set_data_ylim (v : option loc) (g : Geoplot) : Geoplot :=
  mkGeoplot (_gshhg_path g) (_water_color g) (_land_color g) (_scheduled g)
    (_grid_on g) (_grid_constant g) (_grid_kwargs_base g) (_grid_kwargs g)
    (_grid_anchor g) (_update_grid g) (_data_xlim g) v.

(** *** Python list objects *)

Definition not_subscriptable : Exn := TypeError "object is not subscriptable".
Definition index_out_of_range : Exn := IndexError "list index out of range".

(** [l[i]] on the object at [l]: an element of the list there, an
    IndexError past its end, a TypeError when the object is no list. *)
Definition getitem (l : loc) (i : nat) : M PyNum :=
  fun w => match heap w !! l with
           | None => Raise not_subscriptable w
           | Some xs => match xs !! i with
                        | None => Raise index_out_of_range w
                        | Some v => Return v w
                        end
           end.

(** [l[i] = v]: the list object at [l] is updated in place, for every
    holder of the reference. *)
Definition setitem (l : loc) (i : nat) (v : PyNum) : M unit :=
  fun w => match heap w !! l with
           | None => Raise not_subscriptable w
           | Some xs =>
               if decide (i < length xs)%nat
               then Return tt (mkWorld (<[l := <[i := v]> xs]> (heap w))
                                 (self w) (dirty w) (trace w))
               else Raise index_out_of_range w
           end.

(** ** The methods *)

(** Modelled from the spec: [GeoplotBase._schedule_callback], defined in
    [geoplot_base/base.py]; it is the immediate hook that marks the plot
    dirty.  Each invocation is recorded in the trace with the pending list
    it found. *)
Definition _schedule_callback : M unit :=
  fun w => Return tt (mkWorld (heap w) (self w) true
                        (trace w ++ [Callback (_scheduled (self w))])).

(** [self._scheduled += [[kind, False, payload]]] *)
Definition schedule (k : string) (p : Payload) : M unit :=
  modify_self (fun g => set_scheduled (_scheduled g ++ [mkAction k false p]) g).

Definition coastline (level water_color land_color zorder : PyVal)
    (kwargs : Kwargs) : M unit :=
  g <- get_self ;;
  if is_None (_gshhg_path g) then raise (RuntimeError "GSHHG not loaded!")
  else
    when (negb (is_None water_color)) (modify_self (set_water_color water_color)) ;;
    when (negb (is_None land_color)) (modify_self (set_land_color land_color)) ;;
    schedule "coastline" (PCoastline level zorder kwargs) ;;
    _schedule_callback.

(** [{**self._grid_kwargs_base, **kwargs}]: the later dict wins. *)
Definition grid (on grid_constant anchor_lon anchor_lat : PyVal)
    (kwargs : Kwargs) : M unit :=
  modify_self (set_grid_on on) ;;
  modify_self (set_grid_constant grid_constant) ;;
  modify_self (fun g => set_grid_kwargs (kwargs ∪ _grid_kwargs_base g) g) ;;
  modify_self (set_grid_anchor (anchor_lon, anchor_lat)) ;;
  when (negb (bool_decide (is_Some (kwargs !! "linewidth"))))
    (modify_self (fun g =>
       set_grid_kwargs (<["linewidth" := VFloat F64.half]> (_grid_kwargs g)) g)) ;;
  modify_self (set_update_grid true) ;;
  _schedule_callback.

Definition scatter (lon lat : PyVal) (kwargs : Kwargs) : M unit :=
  schedule "scatter" (PScatter lon lat kwargs) ;;
  _schedule_callback.

Definition quiver (lon lat u v c : PyVal) (kwargs : Kwargs) : M unit :=
  schedule "quiver" (PQuiver lon lat u v c kwargs) ;;
  _schedule_callback.

Definition streamplot_projected (x y u v : PyVal) (kwargs : Kwargs) : M unit :=
  schedule "streamplot" (PStreamplot x y u v kwargs) ;;
  _schedule_callback.

Definition streamplot_error : Exn :=
  NotImplementedError "Geoplot.streamplot() not implemented yet.".

Definition streamplot (lon lat u v : PyVal) (kwargs : Kwargs) : M unit :=
  raise streamplot_error.

Definition color_warning : string :=
  "Keyword 'color' passed to streamplot is being overridden.".

(** A call [f(a, b, ..., **kwargs)] from inside the module.  Python binds
    the positional arguments to the first parameters of [f] and refuses
    the call, before the body of [f] runs, when [kwargs] names one of
    these parameters again. *)
Definition multiple_values : Exn :=
  TypeError "got multiple values for argument".

Definition binds_twice (params : list string) (kwargs : Kwargs) : bool :=
  existsb (fun name => bool_decide (is_Some (kwargs !! name))) params.

Arguments binds_twice : simpl never.

Definition call_with (params : list string) (kwargs : Kwargs) (body : M unit)
    : M unit :=
  if binds_twice params kwargs then raise multiple_values else body.

(** The parameters that [tensorfield_symmetric_2d] fills by position in
    its two forwarding calls, [self] being bound by the method call. *)
Definition streamplot_params : list string :=
  ["self"; "lon"; "lat"; "u"; "v"].
Definition streamplot_projected_params : list string :=
  ["self"; "x"; "y"; "u"; "v"].

Definition tensorfield_symmetric_2d {L : Libm} (lon lat : PyVal)
    (t1 t2 angle : option Arr) (x y : PyVal) (linewidth : float64)
    (kwargs : Kwargs) : M unit :=
  if eqb (is_None lon) (is_None x)
     || negb (eqb (is_None lon) (is_None lat))
     || negb (eqb (is_None x) (is_None y))
  then raise (ValueError
         "Exactly one of the pairs (lon,lat) or (x,y) have to be given!")
  else
    match t1, t2, angle with
    | Some t1, Some t2, Some angle =>
        let color := t1 in
        width <- lift (np_sub t1 t2) ;;
        let u := np_sin (np_deg2rad angle) in
        let v := np_cos (np_deg2rad angle) in
        let kwdict := kwargs in
        when (bool_decide (is_Some (kwdict !! "color")))
          (warn color_warning) ;;
        lo <- lift (np_min width) ;;
        hi <- lift (np_max width) ;;
        lo' <- lift (np_min width) ;;
        let kwdict :=
          <["linewidth" :=
              VArr (map (fun w => F64.div (F64.mul linewidth (F64.sub w lo))
                                    (F64.sub hi lo')) width)]> kwdict in
        let kwdict := <["color" := VArr color]> kwdict in
        if negb (is_None lon)
        then call_with streamplot_params kwargs
               (streamplot lon lat (VArr u) (VArr v) kwargs)
        else call_with streamplot_projected_params kwdict
               (streamplot_projected x y (VArr u) (VArr v) kwdict)
    | _, _, _ => raise (ValueError "Tensor has to be given!")
    end.

(** [if lim[0] < d[0]: d[0] = lim[0]] on the running bounds [d]. *)
Definition widen_lower (d lim : loc) : M unit :=
  a <- getitem lim 0 ;;
  b <- getitem d 0 ;;
  if py_lt a b then (a' <- getitem lim 0 ;; setitem d 0 a') else ret tt.

(** [if lim[1] > d[1]: d[1] = lim[1]] on the running bounds [d]. *)
Definition widen_upper (d lim : loc) : M unit :=
  a <- getitem lim 1 ;;
  b <- getitem d 1 ;;
  if py_gt a b then (a' <- getitem lim 1 ;; setitem d 1 a') else ret tt.

(** One of the two axes of [imshow_projected]'s limit check: the first
    limits are stored as they come, by reference; later ones widen the
    stored list. *)
Definition widen (data : option loc) (store : option loc -> Geoplot -> Geoplot)
    (lim : loc) : M unit :=
  match data with
  | None => modify_self (store (Some lim))
  | Some d => widen_lower d lim ;; widen_upper d lim
  end.

Definition imshow_projected (z : PyVal) (xlim ylim : loc) (kwargs : Kwargs)
    : M unit :=
  g <- get_self ;;
  widen (_data_xlim g) set_data_xlim xlim ;;
  g <- get_self ;;
  widen (_data_ylim g) set_data_ylim ylim ;;
  schedule "imshow" (PImshow z xlim ylim kwargs) ;;
  _schedule_callback.

(** ** The limit setters and sequences of calls *)

(** The plot together with [_user_xlim] and [_user_ylim], the two
    attributes the limit setters store; no other method of the class
    mentions them. *)
Record Session := mkSession {
  world : World;
  _user_xlim : option loc;
  _user_ylim : option loc
}.

(** A method of the world, run on a session.  When the method raises, the
    session continues from the world the exception left. *)
Definition in_world {A} (m : M A) (s : Session) : Session :=
  mkSession (world_of (m (world s))) (_user_xlim s) (_user_ylim s).

Definition set_xlim (xlim : loc) (s : Session) : Session :=
  in_world _schedule_callback (mkSession (world s) (Some xlim) (_user_ylim s)).

Definition set_ylim (ylim : loc) (s : Session) : Session :=
  in_world _schedule_callback (mkSession (world s) (_user_xlim s) (Some ylim)).

(** One call of a public method, with its arguments. *)
Inductive Call :=
| CSetXlim (xlim : loc)
| CSetYlim (ylim : loc)
| CCoastline (level water_color land_color zorder : PyVal) (kwargs : Kwargs)
| CGrid (on grid_constant anchor_lon anchor_lat : PyVal) (kwargs : Kwargs)
| CScatter (lon lat : PyVal) (kwargs : Kwargs)
| CQuiver (lon lat u v c : PyVal) (kwargs : Kwargs)
| CStreamplotProjected (x y u v : PyVal) (kwargs : Kwargs)
| CStreamplot (lon lat u v : PyVal) (kwargs : Kwargs)
| CTensorfield (lon lat : PyVal) (t1 t2 angle : option Arr) (x y : PyVal)
    (linewidth : float64) (kwargs : Kwargs)
| CImshow (z : PyVal) (xlim ylim : loc) (kwargs : Kwargs).

Definition call {L : Libm} (c : Call) (s : Session) : Session :=
  match c with
  | CSetXlim xlim => set_xlim xlim s
  | CSetYlim ylim => set_ylim ylim s
  | CCoastline level water_color land_color zorder kwargs =>
      in_world (coastline level water_color land_color zorder kwargs) s
  | CGrid on grid_constant anchor_lon anchor_lat kwargs =>
      in_world (grid on grid_constant anchor_lon anchor_lat kwargs) s
  | CScatter lon lat kwargs => in_world (scatter lon lat kwargs) s
  | CQuiver lon lat u v c kwargs => in_world (quiver lon lat u v c kwargs) s
  | CStreamplotProjected x y u v kwargs =>
      in_world (streamplot_projected x y u v kwargs) s
  | CStreamplot lon lat u v kwargs => in_world (streamplot lon lat u v kwargs) s
  | CTensorfield lon lat t1 t2 angle x y linewidth kwargs =>
      in_world (tensorfield_symmetric_2d lon lat t1 t2 angle x y linewidth kwargs) s
  | CImshow z xlim ylim kwargs => in_world (imshow_projected z xlim ylim kwargs) s
  end.

(** The calls of a plotting script, in order. *)
Definition calls {L : Libm} (cs : list Call) (s : Session) : Session :=
  fold_left (fun s c => call c s) cs s.

(** ** Sample worlds for closed examples *)

(** A plot as the constructor leaves it when no coastline database is
    given, and four limit lists: [[0, 10]], [[0, 5]], [[-5, 3]],
    [[2, 8]]. *)
Definition plot0 : Geoplot :=
  mkGeoplot VNone (VStr "lightblue") (VStr "white") [] (VBool false)
    (VFloat F64.one) ∅ ∅ (VFloat F64.zero, VFloat F64.zero) false None None.

Definition heap0 : gmap loc (list PyNum) :=
  <[1%positive := [PInt 0; PInt 10]]>
    (<[2%positive := [PInt 0; PInt 5]]>
       (<[3%positive := [PInt (-5); PInt 3]]>
          (<[4%positive := [PInt 2; PInt 8]]> ∅))).

Definition world0 : World := mkWorld heap0 plot0 false [].

(** The same plot with a coastline database loaded. *)
Definition plot1 : Geoplot :=
  mkGeoplot (VStr "gshhg") (VStr "lightblue") (VStr "white") [] (VBool false)
    (VFloat F64.one) ∅ ∅ (VFloat F64.zero, VFloat F64.zero) false None None.

Definition world1 : World := mkWorld heap0 plot1 false [].

(** ** Vocabulary of the properties *)

(** How a coordinate pair is supplied. *)
Definition pair_given (a b : PyVal) : bool :=
  negb (is_None a) && negb (is_None b).
Definition pair_half (a b : PyVal) : bool := xorb (is_None a) (is_None b).
Definition pair_absent (a b : PyVal) : bool := is_None a && is_None b.

(** What a scheduling call does to the pending list and to the hook: when
    it returns, one action of kind [k], not yet executed, is at the end of
    the list and the hook ran once, on that list; when it raises, neither
    happened. *)
Definition schedules_once (k : string) (m : M unit) : Prop :=
  forall w,
    match m w with
    | Return _ w' =>
        (exists p, _scheduled (self w')
                   = _scheduled (self w) ++ [mkAction k false p])
        /\ trace w' = trace w ++ [Callback (_scheduled (self w'))]
    | Raise _ w' =>
        _scheduled (self w') = _scheduled (self w) /\ trace w' = trace w
    end.

(** A scheduling call that returns at [w]: the entry [[k, False, p]] is at
    the end of the pending list and the hook ran once, on the list that
    holds it. *)
Definition schedules_now (k : string) (p : Payload) (m : M unit) (w : World)
    : Prop :=
  exists w',
    m w = Return tt w'
    /\ _scheduled (self w') = _scheduled (self w) ++ [mkAction k false p]
    /\ trace w' = trace w ++ [Callback (_scheduled (self w'))].

(** A limit that [imshow_projected] can read at its indices 0 and 1: a
    list of two elements or more. *)
Definition indexable (h : gmap loc (list PyNum)) (l : loc) : Prop :=
  exists xs, h !! l = Some xs /\ (2 <= length xs)%nat.

(** An axis of [imshow_projected] that cannot raise: there are no running
    bounds yet, or the running bounds and the new limit are both
    indexable. *)
Definition axis_ready (h : gmap loc (list PyNum)) (data : option loc)
    (lim : loc) : Prop :=
  match data with
  | None => True
  | Some d => indexable h lim /\ indexable h d
  end.

(** The kind under which each payload is scheduled. *)
Definition kind_of (p : Payload) : string :=
  match p with
  | PCoastline _ _ _ => "coastline"
  | PScatter _ _ _ => "scatter"
  | PQuiver _ _ _ _ _ _ => "quiver"
  | PStreamplot _ _ _ _ _ => "streamplot"
  | PImshow _ _ _ _ => "imshow"
  end.

(** An entry as the methods append it: not executed, and tagged with the
    kind of its payload. *)
Definition pending_entry (a : Action) : Prop :=
  executed a = false /\ kind a = kind_of (payload a).

(** The pending list has only grown, by entries as the methods append
    them. *)
Definition appended_to (old new : list Action) : Prop :=
  exists more, new = old ++ more /\ Forall pending_entry more.

(** The normalised line widths of [tensorfield_symmetric_2d]. *)
Definition line_widths (linewidth : float64) (width : Arr) (lo hi : float64)
    : Arr :=
  map (fun w => F64.div (F64.mul linewidth (F64.sub w lo)) (F64.sub hi lo))
    width.

(** Limit lists that hold Python ints only. *)
Definition is_int (v : PyNum) : bool :=
  match v with PInt _ => true | PFloat _ => false end.

Definition int_heap (h : gmap loc (list PyNum)) : Prop :=
  map_Forall (fun _ xs => Forall (fun v => is_int v = true) xs) h.

(** A limit list after in-place updates: as long as before, its lower
    bound (index 0) not above the old one, its upper bound (index 1) not
    below, anything further untouched. *)
Definition wider (xs xs' : list PyNum) : Prop :=
  length xs' = length xs
  /\ forall (i : nat) (a : Z),
       xs !! i = Some (PInt a) ->
       exists a', xs' !! i = Some (PInt a')
                  /\ (i = 0%nat -> a' <= a)
                  /\ (i = 1%nat -> a <= a')
                  /\ ((2 <= i)%nat -> a' = a).

(** The same list objects, each one [wider]. *)
Definition heap_widened (h h' : gmap loc (list PyNum)) : Prop :=
  forall l,
    match h !! l, h' !! l with
    | Some xs, Some xs' => wider xs xs'
    | None, None => True
    | _, _ => False
    end.


(** What every call leaves in place, from the world before it to the
    world after it: the pending list only grows; the database path and
    the base grid style are those of the constructor; running bounds,
    once there, stay the same list objects; and integer limit lists only
    widen. *)
Definition evolves (w w' : World) : Prop :=
  appended_to (_scheduled (self w)) (_scheduled (self w'))
  /\ _gshhg_path (self w') = _gshhg_path (self w)
  /\ _grid_kwargs_base (self w') = _grid_kwargs_base (self w)
  /\ (forall d, _data_xlim (self w) = Some d -> _data_xlim (self w') = Some d)
  /\ (forall d, _data_ylim (self w) = Some d -> _data_ylim (self w') = Some d)
  /\ (int_heap (heap w) ->
      heap_widened (heap w) (heap w') /\ int_heap (heap w')).


(** A session for closed examples: the sample world, no user limits. *)
Definition session0 : Session := mkSession world0 None None.

(** ** Properties *)

(** 180 degrees are [NPY_PI] radians, and 0 degrees are 0. *)
Example deg2rad_180 :
  F64.deg2rad (F64.of_Z 180) = F64.NPY_PI /\ F64.deg2rad F64.zero = F64.zero.
Proof. vm_compute. split; reflexivity. Qed.

(** Python's exact comparison of ints with floats: [1 < 1.5], not
    [2 < 1.5], and nothing is below NaN. *)
Example py_lt_mixed :
  py_lt (PInt 1) (PFloat (binary_normalize F64.prec F64.emax 3 (-1) false)) = true
  /\ py_lt (PInt 2) (PFloat (binary_normalize F64.prec F64.emax 3 (-1) false)) = false
  /\ py_lt (PFloat (binary_normalize F64.prec F64.emax 3 (-1) false)) (PInt 2) = true
  /\ py_lt (PInt 0) (PFloat S754_nan) = false.
Proof. vm_compute. repeat split; reflexivity. Qed.

Ltac run :=
  unfold coastline, grid, scatter, quiver, streamplot_projected, streamplot,
    imshow_projected, schedule, _schedule_callback, modify_self, get_self,
    warn, when, lift, bind, ret, raise; simpl.

(** *** streamplot *)

(** C4: whatever its arguments and whatever the plot, [streamplot] raises
    NotImplementedError and leaves the world as it found it: nothing is
    scheduled, no attribute changes, the hook is not invoked. *)
Theorem streamplot_not_implemented :
  forall (lon lat u v : PyVal) (kwargs : Kwargs) (w : World),
    let o := streamplot lon lat u v kwargs w in
    (exists msg, o = Raise (NotImplementedError msg) w)
    /\ _scheduled (self (world_of o)) = _scheduled (self w)
    /\ world_of o = w.
Proof.
  intros lon lat u v kwargs w o. subst o. unfold streamplot, raise.
  split; [eexists; reflexivity|]. split; reflexivity.
Qed.

(** *** coastline *)

(** C5: without a coastline database ([_gshhg_path] is None), [coastline]
    raises RuntimeError whatever the other arguments are, and the world,
    its pending list included, is the one before the call. *)
Theorem coastline_without_gshhg :
  forall (level water_color land_color zorder : PyVal) (kwargs : Kwargs)
         (w : World),
    _gshhg_path (self w) = VNone ->
    coastline level water_color land_color zorder kwargs w
    = Raise (RuntimeError "GSHHG not loaded!") w.
Proof.
  intros level wc lc zorder kwargs w Hpath. run. now rewrite Hpath.
Qed.

Lemma coastline_without_gshhg_witness :
  _gshhg_path (self world0) = VNone
  /\ coastline (VInt 1) VNone (VStr "grey") (VInt 0) ∅ world0
     = Raise (RuntimeError "GSHHG not loaded!") world0.
Proof.
  split; [reflexivity | apply coastline_without_gshhg; reflexivity].
Defined.

(** With a database loaded, a call that passes only a land colour. *)
Example coastline_land_only :
  let w := world_of (coastline (VInt 1) VNone (VStr "grey") (VInt 0) ∅ world1) in
  _water_color (self w) = VStr "lightblue"
  /\ _land_color (self w) = VStr "grey"
  /\ _scheduled (self w)
     = [mkAction "coastline" false (PCoastline (VInt 1) (VInt 0) ∅)].
Proof. vm_compute. repeat split; reflexivity. Qed.

(** C10: after any call to [coastline] the stored water colour is the
    argument when that is not None (and the database is loaded), and the
    stored one otherwise; the same for the land colour.  So a None
    argument never changes the stored colour. *)
Theorem coastline_colors :
  forall (level water_color land_color zorder : PyVal) (kwargs : Kwargs)
         (w : World),
    let w' := world_of (coastline level water_color land_color zorder kwargs w) in
    _water_color (self w')
    = (if is_None water_color || is_None (_gshhg_path (self w))
       then _water_color (self w) else water_color)
    /\ _land_color (self w')
       = (if is_None land_color || is_None (_gshhg_path (self w))
          then _land_color (self w) else land_color).
Proof.
  intros level wc lc zorder kwargs w. run.
  destruct (is_None (_gshhg_path (self w))); simpl.
  - now rewrite !orb_true_r.
  - rewrite !orb_false_r. destruct (is_None wc), (is_None lc); simpl; auto.
Qed.

(** *** scatter *)

(** C7: [scatter] returns; the pending list has grown by exactly the entry
    [["scatter", False, (lon, lat, kwargs)]]; the hook ran, on the list
    with that entry, and the plot is dirty. *)
Theorem scatter_schedules :
  forall (lon lat : PyVal) (kwargs : Kwargs) (w : World),
    exists w',
      scatter lon lat kwargs w = Return tt w'
      /\ _scheduled (self w')
         = _scheduled (self w)
             ++ [mkAction "scatter" false (PScatter lon lat kwargs)]
      /\ trace w' = trace w ++ [Callback (_scheduled (self w'))]
      /\ dirty w' = true.
Proof. intros. eexists. run. split; [reflexivity | auto]. Qed.

(** *** The scheduling methods *)

Lemma widen_frame (data : option loc) (store : option loc -> Geoplot -> Geoplot)
    (lim : loc) (w : World) :
  (forall v g, _scheduled (store v g) = _scheduled g) ->
  _scheduled (self (world_of (widen data store lim w))) = _scheduled (self w)
  /\ trace (world_of (widen data store lim w)) = trace w.
Proof.
  intros Hstore. unfold widen, widen_lower, widen_upper, getitem, setitem. run.
  destruct data as [d|]; simpl; [|auto].
  repeat (case_match; simpl in *; simplify_eq; auto).
Qed.

Lemma schedules_once_tail (k : string) (p : Payload) :
  schedules_once k (schedule k p ;; _schedule_callback).
Proof. intros w. run. split; [eauto | reflexivity]. Qed.

Lemma schedules_once_after (k : string) (m m' : M unit) :
  (forall w, _scheduled (self (world_of (m w))) = _scheduled (self w)
             /\ trace (world_of (m w)) = trace w) ->
  schedules_once k m' ->
  schedules_once k (m ;; m').
Proof.
  intros Hm Hm' w. unfold bind. specialize (Hm w).
  destruct (m w) as [[] w1|e w1]; simpl in Hm; [|exact Hm].
  specialize (Hm' w1). destruct Hm as [Hs Ht].
  destruct (m' w1) as [[] w2|e w2]; now rewrite <- Hs, <- Ht.
Qed.

(** One comparison and assignment of an axis, on indexable lists: it
    returns, and the lists stay indexable. *)
Lemma widen_index_returns (i : nat) (cmp : PyNum -> PyNum -> bool)
    (d lim : loc) (w : World) :
  (i < 2)%nat ->
  indexable (heap w) lim ->
  indexable (heap w) d ->
  exists w',
    (a <- getitem lim i ;;
     b <- getitem d i ;;
     if cmp a b then (a' <- getitem lim i ;; setitem d i a') else ret tt) w
    = Return tt w'
    /\ self w' = self w /\ trace w' = trace w
    /\ (forall l, indexable (heap w) l -> indexable (heap w') l).
Proof.
  intros Hi (xl & Hl & Hlen) (xd & Hd & Hdlen).
  destruct (lookup_lt_is_Some_2 xl i) as [a Ha]; [lia|].
  destruct (lookup_lt_is_Some_2 xd i) as [b Hb]; [lia|].
  unfold bind, getitem, setitem, ret. rewrite Hl, Ha, Hd, Hb.
  destruct (cmp a b).
  - rewrite Hl, Ha, Hd. rewrite decide_True by lia.
    eexists. split; [reflexivity|]. simpl. do 2 (split; [reflexivity|]).
    intros l (xs & Hxs & Hxlen). destruct (decide (l = d)) as [->|Hne].
    + exists (<[i := a]> xd). rewrite lookup_insert_eq, length_insert.
      split; [reflexivity|lia].
    + exists xs. now rewrite lookup_insert_ne by congruence.
  - eexists. split; [reflexivity|]. auto.
Qed.

(** An axis that is ready returns: the pending list and the trace are as
    before, at most the axis's own reference was stored, and indexable
    lists stay indexable. *)
Lemma widen_returns (data : option loc)
    (store : option loc -> Geoplot -> Geoplot) (lim : loc) (w : World) :
  axis_ready (heap w) data lim ->
  exists w',
    widen data store lim w = Return tt w'
    /\ (self w' = self w \/ self w' = store (Some lim) (self w))
    /\ trace w' = trace w
    /\ (forall l, indexable (heap w) l -> indexable (heap w') l).
Proof.
  destruct data as [d|]; simpl.
  - intros [Hlim Hd].
    destruct (widen_index_returns 0 py_lt d lim w) as (w1 & H1 & Hs1 & Ht1 & Hi1);
      [lia|assumption|assumption|].
    destruct (widen_index_returns 1 py_gt d lim w1) as (w2 & H2 & Hs2 & Ht2 & Hi2);
      [lia|auto|auto|].
    exists w2. unfold bind at 1. fold (widen_lower d lim). unfold widen_lower.
    rewrite H1. fold (widen_upper d lim). unfold widen_upper. rewrite H2.
    split; [reflexivity|]. split; [left; congruence|].
    split; [congruence|auto].
  - intros _. eexists. split; [reflexivity|]. simpl. auto.
Qed.

Lemma imshow_schedules_now (z : PyVal) (xlim ylim : loc) (kwargs : Kwargs)
    (w : World) :
  axis_ready (heap w) (_data_xlim (self w)) xlim ->
  axis_ready (heap w) (_data_ylim (self w)) ylim ->
  schedules_now "imshow" (PImshow z xlim ylim kwargs)
    (imshow_projected z xlim ylim kwargs) w.
Proof.
  intros Hx Hy. unfold schedules_now, imshow_projected, get_self, bind.
  destruct (widen_returns (_data_xlim (self w)) set_data_xlim xlim w Hx)
    as (w1 & -> & Hs1 & Ht1 & Hi1).
  assert (Hy1 : axis_ready (heap w1) (_data_ylim (self w1)) ylim).
  { replace (_data_ylim (self w1)) with (_data_ylim (self w))
      by (destruct Hs1 as [->| ->]; reflexivity).
    destruct (_data_ylim (self w)); simpl in *; [|exact I].
    destruct Hy. auto. }
  destruct (widen_returns (_data_ylim (self w1)) set_data_ylim ylim w1 Hy1)
    as (w2 & -> & Hs2 & Ht2 & Hi2).
  assert (Hsched : _scheduled (self w2) = _scheduled (self w))
    by (destruct Hs1 as [H1|H1], Hs2 as [H2|H2]; rewrite H2, ?H1;
        reflexivity).
  eexists. split; [run; reflexivity|]. simpl.
  rewrite Hsched, Ht2, Ht1. auto.
Qed.

(** C9: [scatter], [quiver] and [streamplot_projected] return on every
    call, [coastline] on every call with a database loaded, and
    [imshow_projected] on every call whose axes can be read; each of
    these calls appends one entry whose executed flag is False and then
    invokes the hook exactly once, on the list that already holds the
    entry.  The calls that are left raise ([coastline] without a
    database, [imshow_projected] on limits it cannot index) and have then
    appended nothing and not invoked the hook. *)
Theorem scheduling_methods_append_then_call_back :
  (forall level water_color land_color zorder kwargs w,
      if is_None (_gshhg_path (self w))
      then coastline level water_color land_color zorder kwargs w
           = Raise (RuntimeError "GSHHG not loaded!") w
      else schedules_now "coastline" (PCoastline level zorder kwargs)
             (coastline level water_color land_color zorder kwargs) w)
  /\ (forall lon lat kwargs w,
         schedules_now "scatter" (PScatter lon lat kwargs)
           (scatter lon lat kwargs) w)
  /\ (forall lon lat u v c kwargs w,
         schedules_now "quiver" (PQuiver lon lat u v c kwargs)
           (quiver lon lat u v c kwargs) w)
  /\ (forall x y u v kwargs w,
         schedules_now "streamplot" (PStreamplot x y u v kwargs)
           (streamplot_projected x y u v kwargs) w)
  /\ (forall z xlim ylim kwargs w,
         axis_ready (heap w) (_data_xlim (self w)) xlim ->
         axis_ready (heap w) (_data_ylim (self w)) ylim ->
         schedules_now "imshow" (PImshow z xlim ylim kwargs)
           (imshow_projected z xlim ylim kwargs) w)
  /\ (forall level water_color land_color zorder kwargs,
         schedules_once "coastline"
           (coastline level water_color land_color zorder kwargs))
  /\ (forall lon lat kwargs,
         schedules_once "scatter" (scatter lon lat kwargs))
  /\ (forall lon lat u v c kwargs,
         schedules_once "quiver" (quiver lon lat u v c kwargs))
  /\ (forall x y u v kwargs,
         schedules_once "streamplot" (streamplot_projected x y u v kwargs))
  /\ (forall z xlim ylim kwargs,
         schedules_once "imshow" (imshow_projected z xlim ylim kwargs)).
Proof.
  split; [|split; [|split; [|split; [|split]]]].
  - intros level wc lc zorder kwargs w. unfold schedules_now. run.
    destruct (is_None (_gshhg_path (self w))); simpl; [reflexivity|].
    destruct (is_None wc), (is_None lc); simpl;
      (eexists; split; [reflexivity|]; simpl; auto).
  - intros. unfold schedules_now. run. eexists. split; [reflexivity|]. auto.
  - intros. unfold schedules_now. run. eexists. split; [reflexivity|]. auto.
  - intros. unfold schedules_now. run. eexists. split; [reflexivity|]. auto.
  - intros. now apply imshow_schedules_now.
  - repeat split; intros; try apply schedules_once_tail.
    + intros w. run.
      destruct (is_None (_gshhg_path (self w))); simpl; [auto|].
      destruct (is_None water_color), (is_None land_color); simpl;
        (split; [eauto | reflexivity]).
    + intros w. unfold imshow_projected, get_self, bind.
      destruct (widen_frame (_data_xlim (self w)) set_data_xlim xlim w)
        as [Hs Ht]; [reflexivity|].
      destruct (widen _ set_data_xlim xlim w) as [[] w1|e w1]; simpl in Hs, Ht;
        [|auto].
      destruct (widen_frame (_data_ylim (self w1)) set_data_ylim ylim w1)
        as [Hs' Ht']; [reflexivity|].
      destruct (widen _ set_data_ylim ylim w1) as [[] w2|e w2];
        simpl in Hs', Ht'; [|split; congruence].
      run. rewrite Hs', Hs, Ht', Ht. split; [eauto | reflexivity].
Qed.

Lemma scheduling_methods_append_then_call_back_witness :
  schedules_now "coastline" (PCoastline (VInt 1) (VInt 0) ∅)
    (coastline (VInt 1) VNone (VStr "grey") (VInt 0) ∅) world1
  /\ schedules_now "quiver"
       (PQuiver (VArr [F64.zero]) (VArr [F64.one]) (VArr [F64.one])
          (VArr [F64.zero]) VNone ∅)
       (quiver (VArr [F64.zero]) (VArr [F64.one]) (VArr [F64.one])
          (VArr [F64.zero]) VNone ∅) world0
  /\ schedules_now "imshow" (PImshow VNone 3 4 ∅)
       (imshow_projected VNone 3 4 ∅)
       (world_of (imshow_projected VNone 1 2 ∅ world0)).
Proof.
  destruct scheduling_methods_append_then_call_back
    as (Hcoast & _ & Hquiver & _ & Himshow & _).
  split; [exact (Hcoast (VInt 1) VNone (VStr "grey") (VInt 0) ∅ world1)|].
  split; [apply Hquiver|].
  apply Himshow; simpl; split; eexists; (split; [reflexivity|simpl; lia]).
Defined.

(** *** grid *)

(** C8: [grid] returns and the stored configuration is made of the call's
    arguments alone, over the base style of the class: the flag, the
    constant and the anchor are the arguments, the style is [kwargs] over
    [_grid_kwargs_base], and its "linewidth" is the caller's when given
    and 0.5 otherwise.  Nothing of the previous configuration is read. *)
Theorem grid_replaces_configuration :
  forall (on grid_constant anchor_lon anchor_lat : PyVal) (kwargs : Kwargs)
         (w : World),
    exists w',
      grid on grid_constant anchor_lon anchor_lat kwargs w = Return tt w'
      /\ _grid_on (self w') = on
      /\ _grid_constant (self w') = grid_constant
      /\ _grid_anchor (self w') = (anchor_lon, anchor_lat)
      /\ _grid_kwargs (self w')
         = match kwargs !! "linewidth" with
           | Some _ => kwargs
           | None => <["linewidth" := VFloat F64.half]> kwargs
           end ∪ _grid_kwargs_base (self w)
      /\ _grid_kwargs (self w') !! "linewidth"
         = match kwargs !! "linewidth" with
           | Some v => Some v
           | None => Some (VFloat F64.half)
           end.
Proof.
  intros. run.
  destruct (kwargs !! "linewidth") as [v|] eqn:Hlw.
  - rewrite bool_decide_eq_true_2 by eauto. simpl.
    eexists. split; [reflexivity|]. simpl.
    repeat split. apply lookup_union_Some_l, Hlw.
  - rewrite bool_decide_eq_false_2 by (intros [? ?]; discriminate). simpl.
    eexists. split; [reflexivity|]. simpl.
    repeat split.
    + apply insert_union_l.
    + apply lookup_insert_eq.
Qed.

(** *** tensorfield_symmetric_2d *)

(** C3: when both coordinate pairs are supplied, or one member of a pair
    is supplied without the other, or neither pair is supplied, or one of
    [t1], [t2], [angle] is None, the call raises ValueError; the world is
    the one before the call. *)
Theorem tensorfield_validation :
  forall (L : Libm) (lon lat : PyVal) (t1 t2 angle : option Arr)
         (x y : PyVal) (linewidth : float64) (kwargs : Kwargs) (w : World),
    (pair_given lon lat = true /\ pair_given x y = true)
    \/ pair_half lon lat = true
    \/ pair_half x y = true
    \/ (pair_absent lon lat = true /\ pair_absent x y = true)
    \/ t1 = None \/ t2 = None \/ angle = None ->
    exists msg,
      tensorfield_symmetric_2d lon lat t1 t2 angle x y linewidth kwargs w
      = Raise (ValueError msg) w.
Proof.
  intros L lon lat t1 t2 angle x y lw kwargs w H.
  unfold tensorfield_symmetric_2d, pair_given, pair_half, pair_absent in *.
  destruct (is_None lon), (is_None lat), (is_None x), (is_None y);
    simpl in *; try (eexists; reflexivity);
    destruct t1, t2, angle; try (eexists; reflexivity);
    exfalso; intuition discriminate.
Qed.

Lemma tensorfield_validation_witness :
  (pair_given (VArr [F64.zero]) (VArr [F64.zero]) = true
   /\ pair_given (VArr [F64.one]) (VArr [F64.one]) = true)
  /\ exists msg,
       tensorfield_symmetric_2d (L := libm_first_order)
         (VArr [F64.zero]) (VArr [F64.zero])
         (Some [F64.of_Z 2]) (Some [F64.of_Z 1]) (Some [F64.zero])
         (VArr [F64.one]) (VArr [F64.one]) F64.one ∅ world0
       = Raise (ValueError msg) world0.
Proof.
  split; [split; reflexivity|].
  apply (tensorfield_validation libm_first_order).
  left. split; reflexivity.
Defined.

(** The two computed keys are no parameter names: the style handed to
    [streamplot_projected] clashes exactly when the caller's does. *)
Lemma binds_twice_style (kwargs : Kwargs) (c l : PyVal) :
  binds_twice streamplot_projected_params
    (<["color" := c]> (<["linewidth" := l]> kwargs))
  = binds_twice streamplot_projected_params kwargs.
Proof.
  unfold binds_twice, streamplot_projected_params. cbn [existsb].
  now rewrite !lookup_insert_ne by discriminate.
Qed.

(** The geodetic branch: once validation and the array arithmetic have
    passed and the style names no parameter of [streamplot], the call
    ends in [streamplot]'s NotImplementedError; only a warning may have
    been issued before. *)
Lemma tensorfield_geodetic (L : Libm) (lon lat : PyVal) (t1 t2 angle width : Arr)
    (linewidth : float64) (kwargs : Kwargs) (w : World) :
  pair_given lon lat = true ->
  np_sub t1 t2 = inr width ->
  width <> [] ->
  binds_twice streamplot_params kwargs = false ->
  tensorfield_symmetric_2d lon lat (Some t1) (Some t2) (Some angle)
    VNone VNone linewidth kwargs w
  = Raise streamplot_error
      (mkWorld (heap w) (self w) (dirty w)
         (trace w ++ (if bool_decide (is_Some (kwargs !! "color"))
                      then [Warned color_warning] else []))).
Proof.
  unfold pair_given. intros Hpair Hsub Hne Hclash.
  destruct (is_None lon) eqn:Hlon, (is_None lat) eqn:Hlat; try discriminate.
  unfold tensorfield_symmetric_2d, call_with.
  rewrite Hlon, Hlat, Hsub, Hclash. simpl.
  destruct width as [|x0 r]; [congruence|].
  run. destruct (bool_decide _); simpl; [reflexivity|].
  rewrite app_nil_r. now destruct w.
Qed.

(** The projected branch: once validation and the array arithmetic have
    passed and the style names no parameter of [streamplot_projected],
    the call returns, having scheduled one streamplot whose style holds
    [t1] under "color". *)
Lemma tensorfield_projected (L : Libm) (x y : PyVal) (t1 t2 angle width : Arr)
    (linewidth : float64) (kwargs : Kwargs) (w : World) :
  pair_given x y = true ->
  np_sub t1 t2 = inr width ->
  width <> [] ->
  binds_twice streamplot_projected_params kwargs = false ->
  exists w' kwdict,
    tensorfield_symmetric_2d VNone VNone (Some t1) (Some t2) (Some angle)
      x y linewidth kwargs w = Return tt w'
    /\ _scheduled (self w')
       = _scheduled (self w)
           ++ [mkAction "streamplot" false
                 (PStreamplot x y (VArr (np_sin (np_deg2rad angle)))
                    (VArr (np_cos (np_deg2rad angle))) kwdict)]
    /\ kwdict !! "color" = Some (VArr t1)
    /\ (forall k, k <> "color" -> k <> "linewidth" -> kwdict !! k = kwargs !! k)
    /\ trace w'
       = trace w ++ (if bool_decide (is_Some (kwargs !! "color"))
                     then [Warned color_warning] else [])
           ++ [Callback (_scheduled (self w'))].
Proof.
  unfold pair_given. intros Hpair Hsub Hne Hclash.
  destruct (is_None x) eqn:Hx, (is_None y) eqn:Hy; try discriminate.
  unfold tensorfield_symmetric_2d, call_with.
  rewrite Hx, Hy, Hsub. simpl.
  destruct width as [|x0 r]; [congruence|].
  run. rewrite binds_twice_style, Hclash. destruct (bool_decide _); simpl;
    (do 2 eexists; split; [reflexivity|]; simpl;
     split; [reflexivity|]; split; [apply lookup_insert_eq|];
     split; [intros k H1 H2; now rewrite !lookup_insert_ne by congruence|]).
  - now rewrite <- app_assoc.
  - reflexivity.
Qed.

(** C6, as the code has it: a call with exactly one coordinate pair,
    tensor arrays whose difference is a non-empty array, and a style that
    holds "color" and names no parameter of the method the call is
    forwarded to (so neither "u" nor "v") issues the warning; with the
    projected pair it returns, and the scheduled streamplot carries [t1],
    not the caller's value, under "color"; with the geodetic pair it
    raises NotImplementedError after the warning and schedules
    nothing. *)
Theorem tensorfield_color_overridden :
  forall (L : Libm) (lon lat x y : PyVal) (t1 t2 angle width : Arr)
         (linewidth : float64) (kwargs : Kwargs) (w : World),
    (pair_given lon lat = true /\ x = VNone /\ y = VNone)
    \/ (lon = VNone /\ lat = VNone /\ pair_given x y = true) ->
    is_Some (kwargs !! "color") ->
    binds_twice (if is_None lon then streamplot_projected_params
                 else streamplot_params) kwargs = false ->
    np_sub t1 t2 = inr width ->
    width <> [] ->
    let o := tensorfield_symmetric_2d lon lat (Some t1) (Some t2) (Some angle)
               x y linewidth kwargs w in
    if is_None lon
    then exists w' kwdict,
        o = Return tt w'
        /\ trace w' = trace w ++ [Warned color_warning;
                                  Callback (_scheduled (self w'))]
        /\ _scheduled (self w')
           = _scheduled (self w)
               ++ [mkAction "streamplot" false
                     (PStreamplot x y (VArr (np_sin (np_deg2rad angle)))
                        (VArr (np_cos (np_deg2rad angle))) kwdict)]
        /\ kwdict !! "color" = Some (VArr t1)
    else o = Raise streamplot_error
               (mkWorld (heap w) (self w) (dirty w)
                  (trace w ++ [Warned color_warning])).
Proof.
  intros L lon lat x y t1 t2 angle width lw kwargs w Hpair Hcolor Hclash
    Hsub Hne o.
  subst o. destruct Hpair as [(Hg & -> & ->)|(-> & -> & Hp)].
  - assert (Hlon : is_None lon = false)
      by (unfold pair_given in Hg; now destruct (is_None lon)).
    rewrite Hlon in *.
    rewrite (tensorfield_geodetic L lon lat t1 t2 angle width); auto.
    now rewrite bool_decide_eq_true_2.
  - simpl in *.
    destruct (tensorfield_projected L x y t1 t2 angle width lw kwargs w)
      as (w' & kwdict & Hret & Hsched & Hk & _ & Htrace); auto.
    rewrite bool_decide_eq_true_2 in Htrace by assumption.
    exists w', kwdict. auto.
Qed.

Lemma tensorfield_color_overridden_witness :
  exists w' kwdict,
    tensorfield_symmetric_2d (L := libm_first_order) VNone VNone
      (Some [F64.of_Z 2; F64.of_Z 5]) (Some [F64.of_Z 1; F64.of_Z 1])
      (Some [F64.zero; F64.zero])
      (VArr [F64.zero; F64.one]) (VArr [F64.zero; F64.one]) F64.one
      {["color" := VStr "red"]} world0
    = Return tt w'
    /\ trace w' = trace world0 ++ [Warned color_warning;
                                   Callback (_scheduled (self w'))]
    /\ _scheduled (self w')
       = _scheduled (self world0)
           ++ [mkAction "streamplot" false
                 (PStreamplot (VArr [F64.zero; F64.one])
                    (VArr [F64.zero; F64.one])
                    (VArr (np_sin (L := libm_first_order)
                             (np_deg2rad [F64.zero; F64.zero])))
                    (VArr (np_cos (L := libm_first_order)
                             (np_deg2rad [F64.zero; F64.zero])))
                    kwdict)]
    /\ kwdict !! "color" = Some (VArr [F64.of_Z 2; F64.of_Z 5]).
Proof.
  apply (tensorfield_color_overridden libm_first_order VNone VNone
           (VArr [F64.zero; F64.one]) (VArr [F64.zero; F64.one])
           [F64.of_Z 2; F64.of_Z 5] [F64.of_Z 1; F64.of_Z 1]
           [F64.zero; F64.zero] [F64.of_Z 1; F64.of_Z 4] F64.one
           {["color" := VStr "red"]} world0).
  - right. repeat split.
  - exists (VStr "red"). reflexivity.
  - vm_compute. reflexivity.
  - vm_compute. reflexivity.
  - discriminate.
Defined.

(** C6 fails as stated: with the geodetic pair and [color="red"] the call
    does not succeed. *)
Lemma tensorfield_color_geodetic_raises :
  tensorfield_symmetric_2d (L := libm_first_order)
    (VArr [F64.zero]) (VArr [F64.zero])
    (Some [F64.of_Z 2]) (Some [F64.of_Z 1]) (Some [F64.zero])
    VNone VNone F64.one {["color" := VStr "red"]} world0
  = Raise streamplot_error
      (mkWorld heap0 plot0 false [Warned color_warning]).
Proof. vm_compute. reflexivity. Qed.

(** C1 fails as stated: the call with lon, lat, t1, t2, angle does not
    succeed. *)
Lemma tensorfield_single_sample_raises :
  tensorfield_symmetric_2d (L := libm_first_order)
    (VArr [F64.zero]) (VArr [F64.zero])
    (Some [F64.of_Z 2]) (Some [F64.of_Z 1]) (Some [F64.zero])
    VNone VNone F64.one ∅ world0
  = Raise streamplot_error world0.
Proof. vm_compute. reflexivity. Qed.

(** C1, as the code has it: the call with [lon=[0]], [lat=[0]], [t1=[2]],
    [t2=[1]], [angle=[0]] raises NotImplementedError and leaves the world
    as it was; the same tensor given at the projected point [x=[0]],
    [y=[0]] is scheduled as a streamplot with the direction
    [(u, v) = (sin 0, cos 0) = (0, 1)], for every libm that is exact at
    zero. *)
Theorem tensorfield_single_sample :
  forall (L : Libm) (w : World),
    libm_sin F64.zero = F64.zero ->
    libm_cos F64.zero = F64.one ->
    tensorfield_symmetric_2d (VArr [F64.zero]) (VArr [F64.zero])
      (Some [F64.of_Z 2]) (Some [F64.of_Z 1]) (Some [F64.zero])
      VNone VNone F64.one ∅ w
    = Raise streamplot_error w
    /\ exists w' kwdict,
        tensorfield_symmetric_2d VNone VNone
          (Some [F64.of_Z 2]) (Some [F64.of_Z 1]) (Some [F64.zero])
          (VArr [F64.zero]) (VArr [F64.zero]) F64.one ∅ w
        = Return tt w'
        /\ _scheduled (self w')
           = _scheduled (self w)
               ++ [mkAction "streamplot" false
                     (PStreamplot (VArr [F64.zero]) (VArr [F64.zero])
                        (VArr [F64.zero]) (VArr [F64.one]) kwdict)].
Proof.
  intros L w Hsin Hcos.
  assert (Hsub : np_sub [F64.of_Z 2] [F64.of_Z 1] = inr [F64.one])
    by (vm_compute; reflexivity).
  assert (Hrad : F64.deg2rad F64.zero = F64.zero) by (vm_compute; reflexivity).
  split.
  - rewrite (tensorfield_geodetic L _ _ _ _ _ [F64.one]);
      [|reflexivity|exact Hsub|discriminate|reflexivity].
    rewrite bool_decide_eq_false_2
      by (rewrite lookup_empty; intros [? ?]; discriminate).
    rewrite app_nil_r. now destruct w.
  - destruct (tensorfield_projected L (VArr [F64.zero]) (VArr [F64.zero])
                [F64.of_Z 2] [F64.of_Z 1] [F64.zero] [F64.one] F64.one ∅ w)
      as (w' & kwdict & Hret & Hsched & _);
      [reflexivity|exact Hsub|discriminate|reflexivity|].
    exists w', kwdict. split; [exact Hret|].
    rewrite Hsched.
    change (np_deg2rad [F64.zero]) with [F64.deg2rad F64.zero].
    rewrite Hrad.
    change (np_sin [F64.zero]) with [libm_sin F64.zero].
    change (np_cos [F64.zero]) with [libm_cos F64.zero].
    now rewrite Hsin, Hcos.
Qed.

Lemma tensorfield_single_sample_witness :
  @libm_sin libm_first_order F64.zero = F64.zero
  /\ @libm_cos libm_first_order F64.zero = F64.one
  /\ tensorfield_symmetric_2d (L := libm_first_order)
       (VArr [F64.zero]) (VArr [F64.zero])
       (Some [F64.of_Z 2]) (Some [F64.of_Z 1]) (Some [F64.zero])
       VNone VNone F64.one ∅ world0
     = Raise streamplot_error world0
  /\ exists w' kwdict,
      tensorfield_symmetric_2d (L := libm_first_order) VNone VNone
        (Some [F64.of_Z 2]) (Some [F64.of_Z 1]) (Some [F64.zero])
        (VArr [F64.zero]) (VArr [F64.zero]) F64.one ∅ world0
      = Return tt w'
      /\ _scheduled (self w')
         = _scheduled (self world0)
             ++ [mkAction "streamplot" false
                   (PStreamplot (VArr [F64.zero]) (VArr [F64.zero])
                      (VArr [F64.zero]) (VArr [F64.one]) kwdict)].
Proof.
  split; [reflexivity|]. split; [reflexivity|].
  apply (tensorfield_single_sample libm_first_order world0); reflexivity.
Defined.

(** The line width of that single sample: the normalisation divides zero
    by zero. *)
Example tensorfield_single_sample_linewidth :
  exists w' x y u v kwdict,
    tensorfield_symmetric_2d (L := libm_first_order) VNone VNone
      (Some [F64.of_Z 2]) (Some [F64.of_Z 1]) (Some [F64.zero])
      (VArr [F64.zero]) (VArr [F64.zero]) F64.one ∅ world0
    = Return tt w'
    /\ _scheduled (self w')
       = [mkAction "streamplot" false (PStreamplot x y u v kwdict)]
    /\ kwdict !! "linewidth" = Some (VArr [S754_nan]).
Proof.
  do 6 eexists. split; [vm_compute; reflexivity|].
  split; [reflexivity|]. vm_compute. reflexivity.
Qed.

(** *** imshow_projected *)

Lemma bind_getitem {B} (l : loc) (i : nat) (k : PyNum -> M B) (w : World)
    (xs : list PyNum) (v : PyNum) :
  heap w !! l = Some xs -> xs !! i = Some v ->
  bind (getitem l i) k w = k v w.
Proof. intros Hl Hi. unfold bind, getitem. now rewrite Hl, Hi. Qed.

Lemma bind_setitem {B} (l : loc) (i : nat) (v : PyNum) (k : unit -> M B)
    (w : World) (xs : list PyNum) :
  heap w !! l = Some xs -> (i < length xs)%nat ->
  bind (setitem l i v) k w
  = k tt (mkWorld (<[l := <[i := v]> xs]> (heap w)) (self w) (dirty w) (trace w)).
Proof.
  intros Hl Hi. unfold bind, setitem. rewrite Hl.
  now rewrite decide_True by exact Hi.
Qed.

Lemma widen_lower_min (d lim : loc) (a0 a1 x0 x1 : Z) (w : World) :
  heap w !! d = Some [PInt a0; PInt a1] ->
  heap w !! lim = Some [PInt x0; PInt x1] ->
  widen_lower d lim w
  = Return tt (mkWorld (<[d := [PInt (Z.min x0 a0); PInt a1]]> (heap w))
                 (self w) (dirty w) (trace w)).
Proof.
  intros Hd Hlim. unfold widen_lower.
  rewrite (bind_getitem lim 0 _ w _ (PInt x0) Hlim eq_refl).
  rewrite (bind_getitem d 0 _ w _ (PInt a0) Hd eq_refl).
  simpl. destruct (Z.ltb_spec x0 a0) as [H0|H0].
  - rewrite (bind_getitem lim 0 _ w _ (PInt x0) Hlim eq_refl).
    unfold setitem. rewrite Hd. simpl. now rewrite Z.min_l by lia.
  - unfold ret. rewrite Z.min_r by lia. rewrite insert_id by exact Hd.
    now destruct w.
Qed.

Lemma widen_upper_max (d lim : loc) (a0 a1 x0 x1 : Z) (w : World) :
  heap w !! d = Some [PInt a0; PInt a1] ->
  heap w !! lim = Some [PInt x0; PInt x1] ->
  widen_upper d lim w
  = Return tt (mkWorld (<[d := [PInt a0; PInt (Z.max x1 a1)]]> (heap w))
                 (self w) (dirty w) (trace w)).
Proof.
  intros Hd Hlim. unfold widen_upper.
  rewrite (bind_getitem lim 1 _ w _ (PInt x1) Hlim eq_refl).
  rewrite (bind_getitem d 1 _ w _ (PInt a1) Hd eq_refl).
  unfold py_gt. simpl. destruct (Z.ltb_spec a1 x1) as [H1|H1].
  - rewrite (bind_getitem lim 1 _ w _ (PInt x1) Hlim eq_refl).
    unfold setitem. rewrite Hd. simpl. now rewrite Z.max_l by lia.
  - unfold ret. rewrite Z.max_r by lia. rewrite insert_id by exact Hd.
    now destruct w.
Qed.

Lemma widen_steps (store : option loc -> Geoplot -> Geoplot) (d lim : loc) :
  widen (Some d) store lim = (widen_lower d lim ;; widen_upper d lim).
Proof. reflexivity. Qed.

(** One axis, on integer limits that the running bounds do not share with
    the argument: the stored list ends as the minimum of the lower bounds
    and the maximum of the upper bounds.  The list that is updated is the
    one stored by the first call, in place. *)
Lemma widen_min_max (store : option loc -> Geoplot -> Geoplot) (d lim : loc)
    (a0 a1 x0 x1 : Z) (w : World) :
  lim <> d ->
  heap w !! d = Some [PInt a0; PInt a1] ->
  heap w !! lim = Some [PInt x0; PInt x1] ->
  widen (Some d) store lim w
  = Return tt (mkWorld (<[d := [PInt (Z.min x0 a0); PInt (Z.max x1 a1)]]> (heap w))
                 (self w) (dirty w) (trace w)).
Proof.
  intros Hne Hd Hlim. rewrite widen_steps. unfold bind at 1.
  rewrite (widen_lower_min d lim a0 a1 x0 x1 w Hd Hlim).
  rewrite (widen_upper_max d lim (Z.min x0 a0) a1 x0 x1); simpl.
  - now rewrite insert_insert_eq.
  - apply lookup_insert_eq.
  - now rewrite lookup_insert_ne by congruence.
Qed.

(** The limits of the spec's example, each call on list objects of its
    own: the running bounds end as [[-5, 10]] and [[0, 8]]. *)
Example imshow_twice_fresh_lists :
  let w := world_of ((imshow_projected VNone 1 2 ∅ ;;
                      imshow_projected VNone 3 4 ∅) world0) in
  (l ← _data_xlim (self w); heap w !! l) = Some [PInt (-5); PInt 10]
  /\ (l ← _data_ylim (self w); heap w !! l) = Some [PInt 0; PInt 8].
Proof. vm_compute. split; reflexivity. Qed.

(** C2 at a first call that passes one list object, [[0, 10]], as both
    limits, followed by a call with [[-5, 3]] and [[2, 8]]: both running
    bounds are that one object, which the x axis of the second call
    lowers to -5.  The running y bounds, [[0, 10]] before the second call,
    end as [[-5, 10]] and not as the minimum and maximum with [[2, 8]]. *)
Theorem imshow_shared_limit_list :
  let w1 := world_of (imshow_projected VNone 1 1 ∅ world0) in
  let w2 := world_of (imshow_projected VNone 3 4 ∅ w1) in
  (l ← _data_ylim (self w1); heap w1 !! l) = Some [PInt 0; PInt 10]
  /\ heap w1 !! 4%positive = Some [PInt 2; PInt 8]
  /\ (l ← _data_ylim (self w2); heap w2 !! l) = Some [PInt (-5); PInt 10]
  /\ [PInt (-5); PInt 10] <> [PInt (Z.min 0 2); PInt (Z.max 10 8)].
Proof. vm_compute. repeat split; (reflexivity || discriminate). Qed.

(** The list stored by the first call is also the one in the payload of
    the first scheduled image: the second call changes the extent the
    first image was scheduled with. *)
Example imshow_changes_scheduled_extent :
  let w1 := world_of (imshow_projected VNone 1 2 ∅ world0) in
  let w2 := world_of (imshow_projected VNone 3 4 ∅ w1) in
  (payload <$> _scheduled (self w1) !! 0%nat) = Some (PImshow VNone 1 2 ∅)
  /\ heap w1 !! 1%positive = Some [PInt 0; PInt 10]
  /\ (payload <$> _scheduled (self w2) !! 0%nat) = Some (PImshow VNone 1 2 ∅)
  /\ heap w2 !! 1%positive = Some [PInt (-5); PInt 10].
Proof. vm_compute. repeat split; reflexivity. Qed.

(** ** Further properties of the methods *)

(** *** tensorfield_symmetric_2d: the array arithmetic *)

Lemma bool_decide_color (kwargs : Kwargs) :
  bool_decide (is_Some (kwargs !! "color"))
  = match kwargs !! "color" with Some _ => true | None => false end.
Proof.
  destruct (kwargs !! "color") as [v|].
  - apply bool_decide_eq_true_2. eauto.
  - apply bool_decide_eq_false_2. intros [? ?]; discriminate.
Qed.

(** The projected branch, run to its end. *)
Lemma tensorfield_projected_run (L : Libm) (x y : PyVal)
    (t1 t2 angle width : Arr) (lo hi linewidth : float64) (kwargs : Kwargs)
    (w : World) :
  pair_given x y = true ->
  np_sub t1 t2 = inr width ->
  np_min width = inr lo ->
  np_max width = inr hi ->
  binds_twice streamplot_projected_params kwargs = false ->
  let entry :=
    mkAction "streamplot" false
      (PStreamplot x y (VArr (np_sin (np_deg2rad angle)))
         (VArr (np_cos (np_deg2rad angle)))
         (<["color" := VArr t1]>
            (<["linewidth" := VArr (line_widths linewidth width lo hi)]> kwargs))) in
  tensorfield_symmetric_2d VNone VNone (Some t1) (Some t2) (Some angle)
    x y linewidth kwargs w
  = Return tt
      (mkWorld (heap w) (set_scheduled (_scheduled (self w) ++ [entry]) (self w))
         true
         (trace w
            ++ match kwargs !! "color" with
               | Some _ => [Warned color_warning]
               | None => []
               end
            ++ [Callback (_scheduled (self w) ++ [entry])])).
Proof.
  intros Hpair Hsub Hlo Hhi Hclash entry. subst entry.
  unfold pair_given in Hpair.
  destruct (is_None x) eqn:Hx, (is_None y) eqn:Hy; try discriminate.
  unfold tensorfield_symmetric_2d, call_with. rewrite Hx, Hy, Hsub. simpl.
  run. rewrite bool_decide_color, Hlo, Hhi.
  destruct (kwargs !! "color"); simpl; rewrite binds_twice_style, Hclash;
    simpl; unfold line_widths.
  - now rewrite <- app_assoc.
  - reflexivity.
Qed.

(** The projected branch forwards the caller's style with "linewidth" and
    "color" set to the computed arrays, whatever the caller had under
    them; every other key arrives as the caller gave it.  The style must
    not name a parameter of [streamplot_projected] ("u" or "v", say):
    Python refuses such a forwarding call. *)
Theorem tensorfield_projected_style :
  forall (L : Libm) (x y : PyVal) (t1 t2 angle width : Arr)
         (lo hi linewidth : float64) (kwargs : Kwargs) (w : World),
    pair_given x y = true ->
    np_sub t1 t2 = inr width ->
    np_min width = inr lo ->
    np_max width = inr hi ->
    binds_twice streamplot_projected_params kwargs = false ->
    exists w' kwdict,
      tensorfield_symmetric_2d VNone VNone (Some t1) (Some t2) (Some angle)
        x y linewidth kwargs w = Return tt w'
      /\ _scheduled (self w')
         = _scheduled (self w)
             ++ [mkAction "streamplot" false
                   (PStreamplot x y (VArr (np_sin (np_deg2rad angle)))
                      (VArr (np_cos (np_deg2rad angle))) kwdict)]
      /\ kwdict !! "linewidth" = Some (VArr (line_widths linewidth width lo hi))
      /\ kwdict !! "color" = Some (VArr t1)
      /\ (forall k, k <> "color" -> k <> "linewidth" ->
                    kwdict !! k = kwargs !! k).
Proof.
  intros L x y t1 t2 angle width lo hi lw kwargs w Hpair Hsub Hlo Hhi Hclash.
  do 2 eexists. split.
  { apply (tensorfield_projected_run L x y t1 t2 angle width lo hi);
      eassumption. }
  simpl. split; [reflexivity|].
  split; [now rewrite lookup_insert_ne, lookup_insert_eq by discriminate|].
  split; [apply lookup_insert_eq|].
  intros k H1 H2. now rewrite !lookup_insert_ne by congruence.
Qed.

Lemma tensorfield_projected_style_witness :
  exists w' kwdict,
    tensorfield_symmetric_2d (L := libm_first_order) VNone VNone
      (Some [F64.of_Z 2; F64.of_Z 5]) (Some [F64.of_Z 1; F64.of_Z 1])
      (Some [F64.zero; F64.zero])
      (VArr [F64.zero; F64.one]) (VArr [F64.zero; F64.one]) F64.one
      {["cmap" := VStr "jet"]} world0
    = Return tt w'
    /\ _scheduled (self w')
       = _scheduled (self world0)
           ++ [mkAction "streamplot" false
                 (PStreamplot (VArr [F64.zero; F64.one])
                    (VArr [F64.zero; F64.one])
                    (VArr (np_sin (L := libm_first_order)
                             (np_deg2rad [F64.zero; F64.zero])))
                    (VArr (np_cos (L := libm_first_order)
                             (np_deg2rad [F64.zero; F64.zero])))
                    kwdict)]
    /\ kwdict !! "linewidth"
       = Some (VArr (line_widths F64.one [F64.of_Z 1; F64.of_Z 4]
                       (F64.of_Z 1) (F64.of_Z 4)))
    /\ kwdict !! "color" = Some (VArr [F64.of_Z 2; F64.of_Z 5])
    /\ (forall k, k <> "color" -> k <> "linewidth" ->
                  kwdict !! k = ({["cmap" := VStr "jet"]} : Kwargs) !! k).
Proof.
  apply (tensorfield_projected_style libm_first_order
           (VArr [F64.zero; F64.one]) (VArr [F64.zero; F64.one])
           [F64.of_Z 2; F64.of_Z 5] [F64.of_Z 1; F64.of_Z 1]
           [F64.zero; F64.zero] [F64.of_Z 1; F64.of_Z 4]
           (F64.of_Z 1) (F64.of_Z 4) F64.one {["cmap" := VStr "jet"]} world0);
    vm_compute; reflexivity.
Defined.

(** The widths of that example: 0 for the smallest difference, the
    requested line width for the largest. *)
Example line_widths_two_samples :
  line_widths F64.one [F64.of_Z 1; F64.of_Z 4] (F64.of_Z 1) (F64.of_Z 4)
  = [F64.zero; F64.one].
Proof. vm_compute. reflexivity. Qed.

(** A range of zero: whatever the line width and the common value, the
    normalisation [(linewidth * (c - c)) / (c - c)] is NaN. *)
Lemma normalise_zero_range (linewidth c : float64) :
  F64.div (F64.mul linewidth (F64.sub c c)) (F64.sub c c) = S754_nan.
Proof.
  assert (Hsub : F64.sub c c = S754_nan \/ exists s, F64.sub c c = S754_zero s).
  { destruct c as [s|s| |s m e].
    - right. exists false. now destruct s.
    - left. now destruct s.
    - now left.
    - right. exists false. unfold F64.sub, SFsub. now rewrite Z.sub_diag. }
  destruct Hsub as [->|[s ->]].
  - now destruct linewidth.
  - destruct linewidth as [t|t| |t m e]; reflexivity.
Qed.

Lemma minimum_same (c : float64) : F64.minimum c c = c.
Proof. unfold F64.minimum. now destruct (_ || _). Qed.

Lemma maximum_same (c : float64) : F64.maximum c c = c.
Proof. unfold F64.maximum. now destruct (_ || _). Qed.

Lemma np_min_replicate (n : nat) (c : float64) :
  np_min (replicate (S n) c) = inr c.
Proof.
  simpl. f_equal. induction n as [|n IH]; [reflexivity|].
  simpl. now rewrite minimum_same.
Qed.

Lemma np_max_replicate (n : nat) (c : float64) :
  np_max (replicate (S n) c) = inr c.
Proof.
  simpl. f_equal. induction n as [|n IH]; [reflexivity|].
  simpl. now rewrite maximum_same.
Qed.

Lemma line_widths_constant (linewidth c : float64) (n : nat) :
  line_widths linewidth (replicate n c) c c = replicate n S754_nan.
Proof.
  unfold line_widths. induction n as [|n IH]; [reflexivity|].
  simpl. now rewrite normalise_zero_range, IH.
Qed.

(** When [t1 - t2] is the same at every sample (a single sample, or a
    field of constant anisotropy) and the style names no parameter of
    [streamplot_projected], the projected call returns and every line
    width it schedules is NaN, whatever [linewidth] was asked for. *)
Theorem tensorfield_constant_difference :
  forall (L : Libm) (x y : PyVal) (t1 t2 angle : Arr) (n : nat)
         (c linewidth : float64) (kwargs : Kwargs) (w : World),
    pair_given x y = true ->
    np_sub t1 t2 = inr (replicate (S n) c) ->
    binds_twice streamplot_projected_params kwargs = false ->
    exists w' u v kwdict,
      tensorfield_symmetric_2d VNone VNone (Some t1) (Some t2) (Some angle)
        x y linewidth kwargs w = Return tt w'
      /\ _scheduled (self w')
         = _scheduled (self w)
             ++ [mkAction "streamplot" false (PStreamplot x y u v kwdict)]
      /\ kwdict !! "linewidth" = Some (VArr (replicate (S n) S754_nan)).
Proof.
  intros L x y t1 t2 angle n c lw kwargs w Hpair Hsub Hclash.
  do 4 eexists. split.
  { apply (tensorfield_projected_run L x y t1 t2 angle (replicate (S n) c) c c);
      [exact Hpair | exact Hsub | apply np_min_replicate
      | apply np_max_replicate | exact Hclash]. }
  simpl. split; [reflexivity|].
  rewrite lookup_insert_ne, lookup_insert_eq by discriminate.
  now rewrite normalise_zero_range, line_widths_constant.
Qed.

Lemma tensorfield_constant_difference_witness :
  exists w' u v kwdict,
    tensorfield_symmetric_2d (L := libm_first_order) VNone VNone
      (Some [F64.of_Z 3; F64.of_Z 5]) (Some [F64.of_Z 1; F64.of_Z 3])
      (Some [F64.zero; F64.zero])
      (VArr [F64.zero; F64.one]) (VArr [F64.zero; F64.one]) F64.one ∅ world0
    = Return tt w'
    /\ _scheduled (self w')
       = _scheduled (self world0)
           ++ [mkAction "streamplot" false
                 (PStreamplot (VArr [F64.zero; F64.one])
                    (VArr [F64.zero; F64.one]) u v kwdict)]
    /\ kwdict !! "linewidth" = Some (VArr (replicate 2 S754_nan)).
Proof.
  apply (tensorfield_constant_difference libm_first_order
           (VArr [F64.zero; F64.one]) (VArr [F64.zero; F64.one])
           [F64.of_Z 3; F64.of_Z 5] [F64.of_Z 1; F64.of_Z 3]
           [F64.zero; F64.zero] 1 (F64.of_Z 2) F64.one ∅ world0);
    vm_compute; reflexivity.
Defined.

(** Errors of the array arithmetic come out of the call as they are and
    nothing is scheduled: operands that do not broadcast raise before the
    warning about "color" could be issued, empty operands raise in the
    reduction, after it. *)
Theorem tensorfield_arithmetic_errors :
  forall (L : Libm) (lon lat x y : PyVal) (t1 t2 angle : Arr)
         (linewidth : float64) (kwargs : Kwargs) (w : World),
    (pair_given lon lat = true /\ x = VNone /\ y = VNone)
    \/ (lon = VNone /\ lat = VNone /\ pair_given x y = true) ->
    let o := tensorfield_symmetric_2d lon lat (Some t1) (Some t2) (Some angle)
               x y linewidth kwargs w in
    match np_sub t1 t2 with
    | inl e => o = Raise e w
    | inr [] =>
        o = Raise empty_reduction_error
              (mkWorld (heap w) (self w) (dirty w)
                 (trace w ++ match kwargs !! "color" with
                             | Some _ => [Warned color_warning]
                             | None => []
                             end))
    | inr (_ :: _) => True
    end.
Proof.
  intros L lon lat x y t1 t2 angle lw kwargs w Hpair o. subst o.
  assert (Hcheck : eqb (is_None lon) (is_None x)
                   || negb (eqb (is_None lon) (is_None lat))
                   || negb (eqb (is_None x) (is_None y)) = false).
  { unfold pair_given in Hpair.
    destruct Hpair as [(Hg & -> & ->)|(-> & -> & Hg)];
      simpl; destruct (is_None _), (is_None _); simpl in *; congruence. }
  unfold tensorfield_symmetric_2d. rewrite Hcheck.
  destruct (np_sub t1 t2) as [e|[|c width]]; [reflexivity| |exact I].
  run. rewrite bool_decide_color.
  destruct (kwargs !! "color"); simpl; [reflexivity|].
  rewrite app_nil_r. now destruct w.
Qed.

Lemma tensorfield_arithmetic_errors_witness :
  tensorfield_symmetric_2d (L := libm_first_order) VNone VNone
    (Some []) (Some []) (Some [])
    (VArr []) (VArr []) F64.one {["color" := VStr "red"]} world0
  = Raise empty_reduction_error
      (mkWorld heap0 plot0 false [Warned color_warning]).
Proof.
  exact (tensorfield_arithmetic_errors libm_first_order VNone VNone
           (VArr []) (VArr []) [] [] [] F64.one
           {["color" := VStr "red"]} world0
           (or_intror (conj eq_refl (conj eq_refl eq_refl)))).
Defined.

(** A call that names [lon] never returns, whatever else it is given: it
    raises, having scheduled nothing, changed no attribute and no limit
    list, and not invoked the hook; all it can have added to the trace
    are warnings. *)
Theorem tensorfield_geodetic_never_returns :
  forall (L : Libm) (lon lat : PyVal) (t1 t2 angle : option Arr) (x y : PyVal)
         (linewidth : float64) (kwargs : Kwargs) (w : World),
    is_None lon = false ->
    exists e w' warnings,
      tensorfield_symmetric_2d lon lat t1 t2 angle x y linewidth kwargs w
      = Raise e w'
      /\ self w' = self w /\ heap w' = heap w /\ dirty w' = dirty w
      /\ trace w' = trace w ++ warnings
      /\ Forall (fun ev => exists msg, ev = Warned msg) warnings.
Proof.
  intros L lon lat t1 t2 angle x y lw kwargs w Hlon.
  assert (Hnone : forall e : Exn,
             exists e' w' warnings,
               Raise (A := unit) e w = Raise e' w'
               /\ self w' = self w /\ heap w' = heap w /\ dirty w' = dirty w
               /\ trace w' = trace w ++ warnings
               /\ Forall (fun ev => exists msg, ev = Warned msg) warnings).
  { intros e. exists e, w, []. rewrite app_nil_r. repeat split; auto. }
  assert (Hwarn : forall e : Exn,
             exists e' w' warnings,
               Raise (A := unit) e
                 (mkWorld (heap w) (self w) (dirty w)
                    (trace w ++ [Warned color_warning])) = Raise e' w'
               /\ self w' = self w /\ heap w' = heap w /\ dirty w' = dirty w
               /\ trace w' = trace w ++ warnings
               /\ Forall (fun ev => exists msg, ev = Warned msg) warnings).
  { intros e. do 2 eexists. exists [Warned color_warning].
    split; [reflexivity|]. repeat split; eauto. }
  unfold tensorfield_symmetric_2d, call_with. rewrite Hlon.
  destruct (_ || _ || _); [apply Hnone|].
  destruct t1 as [t1|], t2 as [t2|], angle as [angle|]; try apply Hnone.
  run. destruct (np_sub t1 t2) as [e|width]; simpl; [apply Hnone|].
  destruct (bool_decide _); simpl;
    (destruct width as [|c width]; simpl;
     [|destruct (binds_twice streamplot_params kwargs)]);
    (apply Hwarn || apply Hnone).
Qed.

Lemma tensorfield_geodetic_never_returns_witness :
  is_None (VArr [F64.zero]) = false
  /\ exists e w' warnings,
      tensorfield_symmetric_2d (L := libm_first_order)
        (VArr [F64.zero]) VNone None None None VNone VNone F64.one ∅ world0
      = Raise e w'
      /\ self w' = self world0 /\ heap w' = heap world0
      /\ dirty w' = dirty world0
      /\ trace w' = trace world0 ++ warnings
      /\ Forall (fun ev => exists msg, ev = Warned msg) warnings.
Proof.
  split; [reflexivity|].
  apply (tensorfield_geodetic_never_returns libm_first_order); reflexivity.
Defined.

(** A style that names a parameter the forwarding call fills by position
    ("u" or "v") is refused by that call: with exactly one coordinate
    pair and tensor arrays whose difference is a non-empty array, the
    method raises TypeError once the arithmetic is done and the warning
    about "color", if due, is issued.  Neither [streamplot] nor
    [streamplot_projected] is entered, so nothing is scheduled. *)
Theorem tensorfield_style_names_parameter :
  forall (L : Libm) (lon lat x y : PyVal) (t1 t2 angle width : Arr)
         (linewidth : float64) (kwargs : Kwargs) (w : World),
    (pair_given lon lat = true /\ x = VNone /\ y = VNone)
    \/ (lon = VNone /\ lat = VNone /\ pair_given x y = true) ->
    np_sub t1 t2 = inr width ->
    width <> [] ->
    binds_twice (if is_None lon then streamplot_projected_params
                 else streamplot_params) kwargs = true ->
    tensorfield_symmetric_2d lon lat (Some t1) (Some t2) (Some angle)
      x y linewidth kwargs w
    = Raise multiple_values
        (mkWorld (heap w) (self w) (dirty w)
           (trace w ++ match kwargs !! "color" with
                       | Some _ => [Warned color_warning]
                       | None => []
                       end)).
Proof.
  intros L lon lat x y t1 t2 angle width lw kwargs w Hpair Hsub Hne Hclash.
  assert (Hcheck : eqb (is_None lon) (is_None x)
                   || negb (eqb (is_None lon) (is_None lat))
                   || negb (eqb (is_None x) (is_None y)) = false).
  { unfold pair_given in Hpair.
    destruct Hpair as [(Hg & -> & ->)|(-> & -> & Hg)];
      simpl; destruct (is_None _), (is_None _); simpl in *; congruence. }
  unfold tensorfield_symmetric_2d, call_with. rewrite Hcheck, Hsub.
  destruct width as [|c width]; [congruence|].
  run. rewrite bool_decide_color.
  destruct (is_None lon); simpl in *;
    destruct (kwargs !! "color"); simpl;
    rewrite ?binds_twice_style, Hclash; simpl; try reflexivity;
    rewrite app_nil_r; now destruct w.
Qed.

Lemma tensorfield_style_names_parameter_witness :
  binds_twice streamplot_projected_params ({["u" := VInt 1]} : Kwargs) = true
  /\ tensorfield_symmetric_2d (L := libm_first_order) VNone VNone
       (Some [F64.of_Z 2; F64.of_Z 5]) (Some [F64.of_Z 1; F64.of_Z 1])
       (Some [F64.zero; F64.zero])
       (VArr [F64.zero; F64.one]) (VArr [F64.zero; F64.one]) F64.one
       {["u" := VInt 1]} world0
     = Raise multiple_values world0.
Proof.
  split; [vm_compute; reflexivity|].
  exact (tensorfield_style_names_parameter libm_first_order VNone VNone
           (VArr [F64.zero; F64.one]) (VArr [F64.zero; F64.one])
           [F64.of_Z 2; F64.of_Z 5] [F64.of_Z 1; F64.of_Z 1]
           [F64.zero; F64.zero] [F64.of_Z 1; F64.of_Z 4] F64.one
           {["u" := VInt 1]} world0
           (or_intror (conj eq_refl (conj eq_refl eq_refl)))
           eq_refl ltac:(discriminate) eq_refl).
Defined.

(** *** grid: composition *)

(** Of two [grid] calls in a row the second decides: the configuration is
    the one the second call alone would have left.  Neither call touches
    the pending list or a limit list. *)
Theorem grid_last_call_wins :
  forall (on1 gc1 lon1 lat1 on2 gc2 lon2 lat2 : PyVal) (kw1 kw2 : Kwargs)
         (w : World),
    let both := world_of (grid on2 gc2 lon2 lat2 kw2
                            (world_of (grid on1 gc1 lon1 lat1 kw1 w))) in
    let once := world_of (grid on2 gc2 lon2 lat2 kw2 w) in
    _grid_on (self both) = _grid_on (self once)
    /\ _grid_constant (self both) = _grid_constant (self once)
    /\ _grid_kwargs (self both) = _grid_kwargs (self once)
    /\ _grid_anchor (self both) = _grid_anchor (self once)
    /\ _scheduled (self both) = _scheduled (self w)
    /\ heap both = heap w.
Proof.
  intros. subst both once. run.
  destruct (bool_decide (is_Some (kw1 !! "linewidth")));
    destruct (bool_decide (is_Some (kw2 !! "linewidth")));
    simpl; repeat split; reflexivity.
Qed.

(** *** imshow_projected: running bounds that exist *)

(** One axis on integer limits, whether or not the argument is the stored
    list itself. *)
Lemma widen_min_max_any (store : option loc -> Geoplot -> Geoplot) (d lim : loc)
    (a0 a1 x0 x1 : Z) (w : World) :
  heap w !! d = Some [PInt a0; PInt a1] ->
  heap w !! lim = Some [PInt x0; PInt x1] ->
  widen (Some d) store lim w
  = Return tt (mkWorld (<[d := [PInt (Z.min x0 a0); PInt (Z.max x1 a1)]]> (heap w))
                 (self w) (dirty w) (trace w)).
Proof.
  intros Hd Hlim. destruct (decide (lim = d)) as [->|Hne].
  - assert (x0 = a0 /\ x1 = a1) as [-> ->] by (split; congruence).
    rewrite widen_steps. unfold bind at 1.
    rewrite (widen_lower_min d d a0 a1 a0 a1 w Hd Hd).
    rewrite (widen_upper_max d d (Z.min a0 a0) a1 (Z.min a0 a0) a1); simpl;
      [|apply lookup_insert_eq|apply lookup_insert_eq].
    now rewrite insert_insert_eq.
  - now apply widen_min_max.
Qed.

(** With running bounds in place, a call on integer limits returns and
    leaves each bound as the minimum of the lower and the maximum of the
    upper values, provided the list holding the x bounds is neither the
    list holding the y bounds nor the [ylim] argument.  The bounds stay
    the same two list objects. *)
Theorem imshow_unshared_bounds :
  forall (z : PyVal) (xlim ylim : loc) (kwargs : Kwargs) (w : World)
         (dx dy : loc) (a0 a1 b0 b1 x0 x1 y0 y1 : Z),
    _data_xlim (self w) = Some dx ->
    _data_ylim (self w) = Some dy ->
    dy <> dx ->
    ylim <> dx ->
    heap w !! dx = Some [PInt a0; PInt a1] ->
    heap w !! dy = Some [PInt b0; PInt b1] ->
    heap w !! xlim = Some [PInt x0; PInt x1] ->
    heap w !! ylim = Some [PInt y0; PInt y1] ->
    exists w',
      imshow_projected z xlim ylim kwargs w = Return tt w'
      /\ heap w' !! dx = Some [PInt (Z.min x0 a0); PInt (Z.max x1 a1)]
      /\ heap w' !! dy = Some [PInt (Z.min y0 b0); PInt (Z.max y1 b1)]
      /\ _data_xlim (self w') = Some dx
      /\ _data_ylim (self w') = Some dy
      /\ _scheduled (self w')
         = _scheduled (self w)
             ++ [mkAction "imshow" false (PImshow z xlim ylim kwargs)].
Proof.
  intros z xlim ylim kwargs w dx dy a0 a1 b0 b1 x0 x1 y0 y1
    Hdx Hdy Hne Hne' Hhx Hhy Hx Hy.
  unfold imshow_projected, get_self, bind. rewrite Hdx.
  rewrite (widen_min_max_any set_data_xlim dx xlim a0 a1 x0 x1 w Hhx Hx).
  simpl. rewrite Hdy.
  rewrite (widen_min_max_any set_data_ylim dy ylim b0 b1 y0 y1); simpl;
    [|now rewrite lookup_insert_ne by congruence
     |now rewrite lookup_insert_ne by congruence].
  eexists. split; [reflexivity|]. simpl.
  rewrite lookup_insert_ne, lookup_insert_eq by congruence.
  rewrite lookup_insert_eq. auto.
Qed.

Lemma imshow_unshared_bounds_witness :
  exists w',
    imshow_projected VNone 3 4 ∅
      (world_of (imshow_projected VNone 1 2 ∅ world0)) = Return tt w'
    /\ heap w' !! 1%positive = Some [PInt (Z.min (-5) 0); PInt (Z.max 3 10)]
    /\ heap w' !! 2%positive = Some [PInt (Z.min 2 0); PInt (Z.max 8 5)]
    /\ _data_xlim (self w') = Some 1%positive
    /\ _data_ylim (self w') = Some 2%positive
    /\ _scheduled (self w')
       = _scheduled (self (world_of (imshow_projected VNone 1 2 ∅ world0)))
           ++ [mkAction "imshow" false (PImshow VNone 3 4 ∅)].
Proof.
  apply (imshow_unshared_bounds VNone 3 4 ∅
           (world_of (imshow_projected VNone 1 2 ∅ world0)) 1 2
           0 10 0 5 (-5) 3 2 8);
    (reflexivity || discriminate).
Defined.

(** A call is not all-or-nothing: when [xlim] holds a single number, the
    lower running x bound is updated first and the read of [xlim[1]] then
    raises IndexError.  The bound stays changed, nothing is scheduled and
    the hook is not invoked. *)
Theorem imshow_short_xlim :
  forall (z : PyVal) (xlim ylim : loc) (kwargs : Kwargs) (w : World)
         (dx : loc) (a0 a1 x0 : Z),
    _data_xlim (self w) = Some dx ->
    heap w !! dx = Some [PInt a0; PInt a1] ->
    heap w !! xlim = Some [PInt x0] ->
    imshow_projected z xlim ylim kwargs w
    = Raise index_out_of_range
        (mkWorld (<[dx := [PInt (Z.min x0 a0); PInt a1]]> (heap w))
           (self w) (dirty w) (trace w)).
Proof.
  intros z xlim ylim kwargs w dx a0 a1 x0 Hdx Hhx Hx.
  assert (Hne : xlim <> dx) by congruence.
  unfold imshow_projected, get_self, bind at 1. rewrite Hdx.
  unfold bind at 1. rewrite widen_steps. unfold bind at 1, widen_lower.
  rewrite (bind_getitem xlim 0 _ w _ (PInt x0) Hx eq_refl).
  rewrite (bind_getitem dx 0 _ w _ (PInt a0) Hhx eq_refl).
  simpl. destruct (Z.ltb_spec x0 a0) as [H0|H0].
  - rewrite (bind_getitem xlim 0 _ w _ (PInt x0) Hx eq_refl).
    unfold setitem. rewrite Hhx. simpl.
    unfold widen_upper, bind, getitem. simpl.
    rewrite lookup_insert_ne, Hx by congruence. simpl.
    now rewrite Z.min_l by lia.
  - unfold ret, widen_upper, bind, getitem. rewrite Hx. simpl.
    rewrite Z.min_r by lia. rewrite insert_id by exact Hhx. now destruct w.
Qed.

Lemma imshow_short_xlim_witness :
  imshow_projected VNone 5 4 ∅
    (mkWorld (<[5%positive := [PInt (-7)]]> heap0)
       (set_data_xlim (Some 1%positive) plot0) false [])
  = Raise index_out_of_range
      (mkWorld (<[1%positive := [PInt (Z.min (-7) 0); PInt 10]]>
                  (<[5%positive := [PInt (-7)]]> heap0))
         (set_data_xlim (Some 1%positive) plot0) false []).
Proof.
  exact (imshow_short_xlim VNone 5 4 ∅
           (mkWorld (<[5%positive := [PInt (-7)]]> heap0)
              (set_data_xlim (Some 1%positive) plot0) false [])
           1 0 10 (-7) eq_refl eq_refl eq_refl).
Defined.

(** ** Sequences of calls *)

(** *** Widening of limit lists *)

Lemma wider_refl (xs : list PyNum) : wider xs xs.
Proof. split; [reflexivity|]. intros i a Hi. exists a. repeat split; auto; lia. Qed.

Lemma wider_trans (xs ys zs : list PyNum) :
  wider xs ys -> wider ys zs -> wider xs zs.
Proof.
  intros [Hl1 H1] [Hl2 H2]. split; [congruence|].
  intros i a Hi. destruct (H1 i a Hi) as (b & Hb & Hb0 & Hb1 & Hb2).
  destruct (H2 i b Hb) as (c & Hc & Hc0 & Hc1 & Hc2).
  exists c. split; [exact Hc|].
  repeat split; intros Hi'.
  - specialize (Hb0 Hi'). specialize (Hc0 Hi'). lia.
  - specialize (Hb1 Hi'). specialize (Hc1 Hi'). lia.
  - specialize (Hb2 Hi'). specialize (Hc2 Hi'). lia.
Qed.

Lemma heap_widened_refl (h : gmap loc (list PyNum)) : heap_widened h h.
Proof. intros l. destruct (h !! l); [apply wider_refl|exact I]. Qed.

Lemma heap_widened_trans (h1 h2 h3 : gmap loc (list PyNum)) :
  heap_widened h1 h2 -> heap_widened h2 h3 -> heap_widened h1 h3.
Proof.
  intros H12 H23 l. specialize (H12 l). specialize (H23 l).
  destruct (h1 !! l), (h2 !! l), (h3 !! l); try tauto.
  eapply wider_trans; eassumption.
Qed.

(** An assignment [d[i] = x] that lowers index 0 or raises index 1. *)
Lemma setitem_widened (h : gmap loc (list PyNum)) (d : loc) (xs : list PyNum)
    (i : nat) (x y : Z) :
  h !! d = Some xs ->
  xs !! i = Some (PInt y) ->
  (i = 0%nat -> x <= y) -> (i = 1%nat -> y <= x) -> ((2 <= i)%nat -> x = y) ->
  heap_widened h (<[d := <[i := PInt x]> xs]> h).
Proof.
  intros Hd Hi H0 H1 H2 l. destruct (decide (l = d)) as [->|Hne].
  - rewrite lookup_insert_eq, Hd. split; [apply length_insert|].
    intros j a Hj. destruct (decide (j = i)) as [->|Hji].
    + exists x. split.
      * apply list_lookup_insert_eq. eapply lookup_lt_Some, Hi.
      * assert (a = y) by congruence. subst a. auto.
    + exists a. rewrite list_lookup_insert_ne by congruence.
      repeat split; auto; lia.
  - rewrite lookup_insert_ne by congruence.
    destruct (h !! l); [apply wider_refl|exact I].
Qed.

Lemma setitem_int_heap (h : gmap loc (list PyNum)) (d : loc) (xs : list PyNum)
    (i : nat) (x : Z) :
  int_heap h -> h !! d = Some xs ->
  int_heap (<[d := <[i := PInt x]> xs]> h).
Proof.
  intros Hh Hd. apply map_Forall_insert_2; [|exact Hh].
  destruct (decide (i < length xs)%nat) as [Hlt|Hge].
  - apply Forall_insert; [exact (Hh d xs Hd)|reflexivity].
  - rewrite list_insert_ge by lia. exact (Hh d xs Hd).
Qed.

Lemma int_heap_lookup (h : gmap loc (list PyNum)) (l : loc) (xs : list PyNum)
    (i : nat) (v : PyNum) :
  int_heap h -> h !! l = Some xs -> xs !! i = Some v -> exists z, v = PInt z.
Proof.
  intros Hh Hl Hi. pose proof (Hh l xs Hl) as Hall.
  rewrite Forall_lookup in Hall. specialize (Hall i v Hi).
  destruct v; [eauto|discriminate].
Qed.

Lemma widen_lower_step (d lim : loc) (w : World) :
  let w' := world_of (widen_lower d lim w) in
  self w' = self w /\ trace w' = trace w /\ dirty w' = dirty w
  /\ (int_heap (heap w) -> heap_widened (heap w) (heap w') /\ int_heap (heap w')).
Proof.
  assert (Hsame : self w = self w /\ trace w = trace w /\ dirty w = dirty w
                  /\ (int_heap (heap w) ->
                      heap_widened (heap w) (heap w) /\ int_heap (heap w)))
    by (repeat split; auto using heap_widened_refl).
  unfold widen_lower, bind, getitem, setitem, ret.
  destruct (heap w !! lim) as [xl|] eqn:Hl; simpl; [|exact Hsame].
  destruct (xl !! 0%nat) as [a|] eqn:Ha; simpl; [|exact Hsame].
  destruct (heap w !! d) as [xd|] eqn:Hd; simpl; [|exact Hsame].
  destruct (xd !! 0%nat) as [b|] eqn:Hb; simpl; [|exact Hsame].
  destruct (py_lt a b) eqn:Hlt; simpl; [|exact Hsame].
  rewrite Hl, Ha, Hd. simpl.
  rewrite decide_True by (eapply lookup_lt_Some, Hb). simpl.
  do 3 (split; [reflexivity|]). intros Hint.
  destruct (int_heap_lookup _ _ _ _ _ Hint Hl Ha) as [x ->].
  destruct (int_heap_lookup _ _ _ _ _ Hint Hd Hb) as [y ->].
  simpl in Hlt. apply Z.ltb_lt in Hlt.
  split; [|now apply setitem_int_heap].
  apply (setitem_widened _ _ _ _ x y Hd Hb); intros; try lia; discriminate.
Qed.

Lemma widen_upper_step (d lim : loc) (w : World) :
  let w' := world_of (widen_upper d lim w) in
  self w' = self w /\ trace w' = trace w /\ dirty w' = dirty w
  /\ (int_heap (heap w) -> heap_widened (heap w) (heap w') /\ int_heap (heap w')).
Proof.
  assert (Hsame : self w = self w /\ trace w = trace w /\ dirty w = dirty w
                  /\ (int_heap (heap w) ->
                      heap_widened (heap w) (heap w) /\ int_heap (heap w)))
    by (repeat split; auto using heap_widened_refl).
  unfold widen_upper, bind, getitem, setitem, ret.
  destruct (heap w !! lim) as [xl|] eqn:Hl; simpl; [|exact Hsame].
  destruct (xl !! 1%nat) as [a|] eqn:Ha; simpl; [|exact Hsame].
  destruct (heap w !! d) as [xd|] eqn:Hd; simpl; [|exact Hsame].
  destruct (xd !! 1%nat) as [b|] eqn:Hb; simpl; [|exact Hsame].
  destruct (py_gt a b) eqn:Hgt; simpl; [|exact Hsame].
  rewrite Hl, Ha, Hd. simpl.
  rewrite decide_True by (eapply lookup_lt_Some, Hb). simpl.
  do 3 (split; [reflexivity|]). intros Hint.
  destruct (int_heap_lookup _ _ _ _ _ Hint Hl Ha) as [x ->].
  destruct (int_heap_lookup _ _ _ _ _ Hint Hd Hb) as [y ->].
  unfold py_gt in Hgt. simpl in Hgt. apply Z.ltb_lt in Hgt.
  split; [|now apply setitem_int_heap].
  apply (setitem_widened _ _ _ _ x y Hd Hb); intros; try lia; discriminate.
Qed.

Lemma world_of_bind {A B} (m : M A) (k : A -> M B) (w : World) :
  world_of (bind m k w)
  = match m w with
    | Return a w' => world_of (k a w')
    | Raise _ w' => w'
    end.
Proof. unfold bind. now destruct (m w). Qed.

(** An axis with running bounds in place: the attributes stay, integer
    limit lists only widen. *)
Lemma widen_some_step (store : option loc -> Geoplot -> Geoplot) (d lim : loc)
    (w : World) :
  let w' := world_of (widen (Some d) store lim w) in
  self w' = self w /\ trace w' = trace w /\ dirty w' = dirty w
  /\ (int_heap (heap w) -> heap_widened (heap w) (heap w') /\ int_heap (heap w')).
Proof.
  simpl. rewrite world_of_bind.
  pose proof (widen_lower_step d lim w) as Hlo. simpl in Hlo.
  destruct (widen_lower d lim w) as [[] w1|e w1]; simpl in Hlo; [|exact Hlo].
  pose proof (widen_upper_step d lim w1) as Hhi. simpl in Hhi.
  destruct Hlo as (Hs & Ht & Hd & Hh), Hhi as (Hs' & Ht' & Hd' & Hh').
  do 3 (split; [congruence|]).
  intros Hint. destruct (Hh Hint) as [H1 H2]. destruct (Hh' H2) as [H3 H4].
  split; [eapply heap_widened_trans; eassumption|exact H4].
Qed.

(** *** What every call leaves in place *)

Lemma appended_to_refl (l : list Action) : appended_to l l.
Proof. exists []. split; [now rewrite app_nil_r|constructor]. Qed.

Lemma appended_to_trans (l1 l2 l3 : list Action) :
  appended_to l1 l2 -> appended_to l2 l3 -> appended_to l1 l3.
Proof.
  intros (m1 & -> & H1) (m2 & -> & H2). exists (m1 ++ m2).
  split; [now rewrite app_assoc|now apply Forall_app].
Qed.

Lemma appended_to_one (l : list Action) (p : Payload) :
  appended_to l (l ++ [mkAction (kind_of p) false p]).
Proof.
  exists [mkAction (kind_of p) false p]. split; [reflexivity|].
  repeat constructor.
Qed.

Lemma evolves_refl (w : World) : evolves w w.
Proof.
  unfold evolves. split; [apply appended_to_refl|].
  do 4 (split; [auto|]). intros H. split; [apply heap_widened_refl|exact H].
Qed.

Lemma evolves_trans (w1 w2 w3 : World) :
  evolves w1 w2 -> evolves w2 w3 -> evolves w1 w3.
Proof.
  intros (Ha & Hp & Hb & Hx & Hy & Hh) (Ha' & Hp' & Hb' & Hx' & Hy' & Hh').
  unfold evolves. split; [eapply appended_to_trans; eassumption|].
  do 2 (split; [congruence|]). do 2 (split; [auto|]).
  intros H. destruct (Hh H) as [H1 H2]. destruct (Hh' H2) as [H3 H4].
  split; [eapply heap_widened_trans; eassumption|exact H4].
Qed.

(** A step that leaves the limit lists alone. *)
Lemma evolves_same_heap (w w' : World) :
  heap w' = heap w ->
  appended_to (_scheduled (self w)) (_scheduled (self w')) ->
  _gshhg_path (self w') = _gshhg_path (self w) ->
  _grid_kwargs_base (self w') = _grid_kwargs_base (self w) ->
  (forall d, _data_xlim (self w) = Some d -> _data_xlim (self w') = Some d) ->
  (forall d, _data_ylim (self w) = Some d -> _data_ylim (self w') = Some d) ->
  evolves w w'.
Proof.
  intros Hh Ha Hp Hb Hx Hy. unfold evolves. do 5 (split; [assumption|]).
  rewrite Hh. intros H. split; [apply heap_widened_refl|exact H].
Qed.

Lemma evolves_bind {A B} (m : M A) (k : A -> M B) (w : World) :
  evolves w (world_of (m w)) ->
  (forall a w', evolves w' (world_of (k a w'))) ->
  evolves w (world_of (bind m k w)).
Proof.
  intros Hm Hk. rewrite world_of_bind.
  destruct (m w) as [a w1|e w1]; simpl in Hm; [|exact Hm].
  eapply evolves_trans; [exact Hm|apply Hk].
Qed.

Ltac same_heap :=
  apply evolves_same_heap; simpl;
  auto using appended_to_refl.

Lemma schedule_evolves (p : Payload) (w : World) :
  evolves w (world_of ((schedule (kind_of p) p ;; _schedule_callback) w)).
Proof. run. same_heap. apply appended_to_one. Qed.

Lemma callback_evolves (w : World) :
  evolves w (world_of (_schedule_callback w)).
Proof. run. same_heap. Qed.

Lemma coastline_evolves (level water_color land_color zorder : PyVal)
    (kwargs : Kwargs) (w : World) :
  evolves w (world_of (coastline level water_color land_color zorder kwargs w)).
Proof.
  run. destruct (is_None (_gshhg_path (self w))); simpl; [apply evolves_refl|].
  destruct (is_None water_color), (is_None land_color); simpl; same_heap;
    apply (appended_to_one _ (PCoastline level zorder kwargs)).
Qed.

Lemma grid_evolves (on grid_constant anchor_lon anchor_lat : PyVal)
    (kwargs : Kwargs) (w : World) :
  evolves w (world_of (grid on grid_constant anchor_lon anchor_lat kwargs w)).
Proof. run. destruct (bool_decide _); simpl; same_heap. Qed.

Lemma tensorfield_evolves (L : Libm) (lon lat : PyVal)
    (t1 t2 angle : option Arr) (x y : PyVal) (linewidth : float64)
    (kwargs : Kwargs) (w : World) :
  evolves w (world_of (tensorfield_symmetric_2d lon lat t1 t2 angle x y
                         linewidth kwargs w)).
Proof.
  unfold tensorfield_symmetric_2d, call_with.
  destruct (_ || _ || _); [apply evolves_refl|].
  destruct t1 as [t1|], t2 as [t2|], angle as [angle|]; try apply evolves_refl.
  run. destruct (np_sub t1 t2) as [e|width]; simpl; [apply evolves_refl|].
  destruct (bool_decide _); simpl;
    (destruct width as [|c width]; simpl; [same_heap|]);
    (destruct (is_None lon); simpl; destruct (binds_twice _ _); simpl;
     same_heap;
     match goal with
     | |- appended_to _ (_ ++ [mkAction _ _ ?p]) => apply (appended_to_one _ p)
     end).
Qed.

Lemma widen_x_evolves (lim : loc) (w : World) :
  evolves w (world_of (widen (_data_xlim (self w)) set_data_xlim lim w)).
Proof.
  destruct (_data_xlim (self w)) as [d|] eqn:Hd.
  - destruct (widen_some_step set_data_xlim d lim w) as (Hs & _ & _ & Hh).
    unfold evolves. rewrite Hs. split; [apply appended_to_refl|].
    do 4 (split; [auto|]). exact Hh.
  - simpl. run. same_heap. congruence.
Qed.

Lemma widen_y_evolves (lim : loc) (w : World) :
  evolves w (world_of (widen (_data_ylim (self w)) set_data_ylim lim w)).
Proof.
  destruct (_data_ylim (self w)) as [d|] eqn:Hd.
  - destruct (widen_some_step set_data_ylim d lim w) as (Hs & _ & _ & Hh).
    unfold evolves. rewrite Hs. split; [apply appended_to_refl|].
    do 4 (split; [auto|]). exact Hh.
  - simpl. run. same_heap. congruence.
Qed.

Lemma imshow_evolves (z : PyVal) (xlim ylim : loc) (kwargs : Kwargs)
    (w : World) :
  evolves w (world_of (imshow_projected z xlim ylim kwargs w)).
Proof.
  unfold imshow_projected.
  change (evolves w (world_of (bind (widen (_data_xlim (self w)) set_data_xlim xlim)
            (fun _ => g <- get_self ;;
                      widen (_data_ylim g) set_data_ylim ylim ;;
                      schedule "imshow" (PImshow z xlim ylim kwargs) ;;
                      _schedule_callback) w))).
  apply evolves_bind; [apply widen_x_evolves|]. intros _ w1.
  change (evolves w1 (world_of (bind (widen (_data_ylim (self w1)) set_data_ylim ylim)
            (fun _ => schedule "imshow" (PImshow z xlim ylim kwargs) ;;
                      _schedule_callback) w1))).
  apply evolves_bind; [apply widen_y_evolves|]. intros _ w2.
  apply (schedule_evolves (PImshow z xlim ylim kwargs)).
Qed.

Lemma call_evolves (L : Libm) (c : Call) (s : Session) :
  evolves (world s) (world (call c s)).
Proof.
  destruct c; simpl.
  - apply callback_evolves.
  - apply callback_evolves.
  - apply coastline_evolves.
  - apply grid_evolves.
  - apply (schedule_evolves (PScatter lon lat kwargs)).
  - apply (schedule_evolves (PQuiver lon lat u v c kwargs)).
  - apply (schedule_evolves (PStreamplot x y u v kwargs)).
  - apply evolves_refl.
  - apply tensorfield_evolves.
  - apply imshow_evolves.
Qed.

Lemma calls_evolves (L : Libm) (cs : list Call) (s : Session) :
  evolves (world s) (world (calls cs s)).
Proof.
  revert s. induction cs as [|c cs IH]; intros s; [apply evolves_refl|].
  simpl. eapply evolves_trans; [apply call_evolves|apply IH].
Qed.

(** *** Invariants of a plotting script *)


(** No method loads the coastline database: when the plot was built
    without one, [coastline] raises RuntimeError after any script, too,
    and leaves the world as it found it. *)
Theorem calls_never_load_database :
  forall (L : Libm) (cs : list Call) (s : Session)
         (level water_color land_color zorder : PyVal) (kwargs : Kwargs),
    _gshhg_path (self (world s)) = VNone ->
    coastline level water_color land_color zorder kwargs (world (calls cs s))
    = Raise (RuntimeError "GSHHG not loaded!") (world (calls cs s)).
Proof.
  intros L cs s level wc lc zorder kwargs Hpath.
  destruct (calls_evolves L cs s) as (_ & Hp & _).
  run. now rewrite Hp, Hpath.
Qed.

Lemma calls_never_load_database_witness :
  _gshhg_path (self (world session0)) = VNone
  /\ coastline (VInt 1) VNone VNone (VInt 0) ∅
       (world (calls (L := libm_first_order)
                 [CScatter (VArr [F64.zero]) (VArr [F64.one]) ∅;
                  CGrid (VBool true) (VFloat F64.one) VNone VNone ∅;
                  CImshow VNone 1 2 ∅] session0))
     = Raise (RuntimeError "GSHHG not loaded!")
         (world (calls (L := libm_first_order)
                   [CScatter (VArr [F64.zero]) (VArr [F64.one]) ∅;
                    CGrid (VBool true) (VFloat F64.one) VNone VNone ∅;
                    CImshow VNone 1 2 ∅] session0)).
Proof.
  split; [reflexivity|].
  apply (calls_never_load_database libm_first_order). reflexivity.
Defined.

(** The running bounds are, for the rest of the session, the two list
    objects the first [imshow_projected] call was given: the call stores
    the references, and no later call replaces them. *)
Theorem calls_keep_first_limit_objects :
  forall (L : Libm) (z : PyVal) (xlim ylim : loc) (kwargs : Kwargs)
         (cs : list Call) (s : Session),
    _data_xlim (self (world s)) = None ->
    _data_ylim (self (world s)) = None ->
    let s' := calls (CImshow z xlim ylim kwargs :: cs) s in
    _data_xlim (self (world s')) = Some xlim
    /\ _data_ylim (self (world s')) = Some ylim.
Proof.
  intros L z xlim ylim kwargs cs s Hx Hy s'. subst s'. simpl.
  destruct (calls_evolves L cs (in_world (imshow_projected z xlim ylim kwargs) s))
    as (_ & _ & _ & Hkx & Hky & _).
  split; [apply Hkx|apply Hky]; simpl;
    unfold imshow_projected, get_self, bind; rewrite Hx; simpl; rewrite Hy;
    reflexivity.
Qed.

Lemma calls_keep_first_limit_objects_witness :
  _data_xlim (self (world session0)) = None
  /\ _data_ylim (self (world session0)) = None
  /\ _data_xlim (self (world (calls (L := libm_first_order)
                                [CImshow VNone 1 2 ∅; CImshow VNone 3 4 ∅;
                                 CImshow VNone 4 3 ∅] session0)))
     = Some 1%positive
  /\ _data_ylim (self (world (calls (L := libm_first_order)
                                [CImshow VNone 1 2 ∅; CImshow VNone 3 4 ∅;
                                 CImshow VNone 4 3 ∅] session0)))
     = Some 2%positive.
Proof.
  split; [reflexivity|]. split; [reflexivity|].
  apply (calls_keep_first_limit_objects libm_first_order VNone 1 2 ∅
           [CImshow VNone 3 4 ∅; CImshow VNone 4 3 ∅] session0); reflexivity.
Defined.

Lemma wider_pair (a0 a1 : Z) (xs : list PyNum) :
  wider [PInt a0; PInt a1] xs ->
  exists b0 b1, xs = [PInt b0; PInt b1] /\ b0 <= a0 /\ a1 <= b1.
Proof.
  intros [Hlen H].
  destruct (H 0%nat a0 eq_refl) as (b0 & Hb0 & Hle0 & _).
  destruct (H 1%nat a1 eq_refl) as (b1 & Hb1 & _ & Hle1 & _).
  exists b0, b1. split; [|auto].
  destruct xs as [|x0 [|x1 [|x2 r]]]; simpl in *; try discriminate.
  congruence.
Qed.

(** Limits never narrow.  On a heap of integer limit lists, a list
    [[a0, a1]] is, after any script and whatever the scripts' calls share
    or raise, still a two-element list [[b0, b1]], with [b0 <= a0] and
    [a1 <= b1]. *)
Theorem calls_never_narrow :
  forall (L : Libm) (cs : list Call) (s : Session) (l : loc) (a0 a1 : Z),
    int_heap (heap (world s)) ->
    heap (world s) !! l = Some [PInt a0; PInt a1] ->
    exists b0 b1,
      heap (world (calls cs s)) !! l = Some [PInt b0; PInt b1]
      /\ b0 <= a0 /\ a1 <= b1.
Proof.
  intros L cs s l a0 a1 Hint Hl.
  destruct (calls_evolves L cs s) as (_ & _ & _ & _ & _ & Hh).
  destruct (Hh Hint) as [Hw _]. specialize (Hw l). rewrite Hl in Hw.
  destruct (heap (world (calls cs s)) !! l) as [xs|]; [|contradiction].
  destruct (wider_pair a0 a1 xs Hw) as (b0 & b1 & -> & H0 & H1). eauto.
Qed.

Lemma calls_never_narrow_witness :
  int_heap (heap (world session0))
  /\ heap (world session0) !! 1%positive = Some [PInt 0; PInt 10]
  /\ exists b0 b1,
      heap (world (calls (L := libm_first_order)
                     [CImshow VNone 1 1 ∅; CImshow VNone 3 4 ∅] session0))
        !! 1%positive = Some [PInt b0; PInt b1]
      /\ b0 <= 0 /\ 10 <= b1.
Proof.
  assert (Hint : int_heap (heap (world session0))).
  { unfold int_heap. refine (bool_decide_unpack _ _). vm_compute. exact I. }
  split; [exact Hint|]. split; [reflexivity|].
  apply (calls_never_narrow libm_first_order
           [CImshow VNone 1 1 ∅; CImshow VNone 3 4 ∅] session0 1 0 10 Hint).
  reflexivity.
Defined.

(** *** The hook *)






(** ** Further edge behaviour *)

(** [coastline] returns exactly when a coastline database is loaded; its
    other arguments are never a reason to raise. *)
Theorem coastline_returns_iff_loaded :
  forall (level water_color land_color zorder : PyVal) (kwargs : Kwargs)
         (w : World),
    (exists w', coastline level water_color land_color zorder kwargs w
                = Return tt w')
    <-> is_None (_gshhg_path (self w)) = false.
Proof.
  intros level wc lc zorder kwargs w. run.
  destruct (is_None (_gshhg_path (self w))); simpl.
  - split; [intros [w' H]; discriminate H|discriminate].
  - split; [reflexivity|]. intros _.
    destruct (is_None wc), (is_None lc); simpl; eexists; reflexivity.
Qed.

(** The first call takes its limits unchecked.  Given as [xlim] an
    object that cannot be subscripted (a number, say; not None, which
    would leave the bounds unset), it returns and keeps that object as
    the running x bounds; it is the second call that raises, with a
    TypeError from the running bounds, although its own limits are
    lists.  That second call schedules nothing. *)
Theorem imshow_deferred_type_error :
  forall (z1 z2 : PyVal) (xlim1 ylim1 xlim2 ylim2 : loc) (kw1 kw2 : Kwargs)
         (w : World) (x0 : PyNum) (rest : list PyNum),
    _data_xlim (self w) = None ->
    _data_ylim (self w) = None ->
    heap w !! xlim1 = None ->
    heap w !! xlim2 = Some (x0 :: rest) ->
    exists w1,
      imshow_projected z1 xlim1 ylim1 kw1 w = Return tt w1
      /\ heap w1 = heap w
      /\ imshow_projected z2 xlim2 ylim2 kw2 w1 = Raise not_subscriptable w1.
Proof.
  intros z1 z2 xlim1 ylim1 xlim2 ylim2 kw1 kw2 w x0 rest Hx Hy H1 H2.
  eexists. split.
  { unfold imshow_projected, get_self, bind. rewrite Hx. simpl. rewrite Hy.
    reflexivity. }
  split; [reflexivity|].
  unfold imshow_projected, get_self, bind, widen, widen_lower, bind, getitem.
  simpl. rewrite H2. simpl. now rewrite H1.
Qed.

Lemma imshow_deferred_type_error_witness :
  exists w1,
    imshow_projected VNone 9 2 ∅ world0 = Return tt w1
    /\ heap w1 = heap world0
    /\ imshow_projected VNone 3 4 ∅ w1 = Raise not_subscriptable w1.
Proof.
  apply (imshow_deferred_type_error VNone VNone 9 2 3 4 ∅ ∅ world0
           (PInt (-5)) [PInt 3]); reflexivity.
Defined.
